(** * EduBridge: a shallow embedding of the role-based dashboard front end

    The development follows the source files of the repository:
    - [JS]            the pieces of the JavaScript runtime the code relies on
                      (string search, rounding, ISO dates, promises, JSON output);
    - [AuthContext]   [src/contexts/AuthContext.tsx] and the [ProtectedRoute]
                      component that guards the routes;
    - [AppSidebar]    [src/components/AppSidebar.tsx];
    - [App]           the [DashboardRouter] of the application root;
    - [Login]         [src/pages/Login.tsx];
    - [StorageQuota]  [login] and [handleLogin] in a browser that limits the
                      storage, where [localStorage.setItem] can throw;
    - [AIFeedback]    [src/pages/teacher/AIFeedback.tsx];
    - [StudentPapers] the teacher's paper list with its search filter;
    - [DashboardLayout] the layout around the signed-in pages;
    - [Root]          the two top-level routes of [App] and their redirects;
    - [TeacherSettings] the submit handlers of the settings page.

    Strings are byte strings; numbers that the code only ever uses as integers
    are in [Z], the others are doubles, written as rationals and rounded at
    every operation; the browser's [localStorage] is a finite map from keys
    to strings. *)

From Stdlib Require Import ZArith QArith Qround Ascii String List Bool Lia Lqa.
From stdpp Require Import base option list gmap strings pretty.

Local Open Scope string_scope.
Local Open Scope Z_scope.

(* ===================================================================== *)
(** * The JavaScript runtime, as far as the program uses it *)
(* ===================================================================== *)

Module JS.

(** ** Strings *)

(** [String.prototype.toLowerCase], on the ASCII letters: a byte in
    ['A'..'Z'] moves to ['a'..'z'], every other byte is kept. *)
Definition lowerChar (c : ascii) : ascii :=
  let n := nat_of_ascii c in
  if (Nat.leb 65 n && Nat.leb n 90)%bool then ascii_of_nat (n + 32) else c.

Fixpoint toLowerCase (s : string) : string :=
  match s with
  | EmptyString => EmptyString
  | String c s' => String (lowerChar c) (toLowerCase s')
  end.

(** [s.startsWith(t)] *)
Fixpoint startsWith (s t : string) {struct t} : bool :=
  match t, s with
  | EmptyString, _ => true
  | String _ _, EmptyString => false
  | String b t', String a s' => Ascii.eqb a b && startsWith s' t'
  end.

(** [s.includes(t)]: [t] occurs in [s] at some position. *)
Fixpoint includes (s t : string) : bool :=
  startsWith s t ||
  match s with
  | EmptyString => false
  | String _ s' => includes s' t
  end.

(** [xs.includes(x)] on arrays. *)
Definition arrayIncludes {A} `{EqDecision A} (xs : list A) (x : A) : bool :=
  existsb (fun y => bool_decide (y = x)) xs.

(** [xs.some(p)] *)
Definition some {A} (p : A -> bool) (xs : list A) : bool := existsb p xs.

(** [s.split(sep)] for a separator of one character: the pieces between
    the separators, in order; the result is never the empty array. *)
Fixpoint split (sep : ascii) (s : string) : list string :=
  match s with
  | EmptyString => [EmptyString]
  | String c s' =>
      if Ascii.eqb c sep then EmptyString :: split sep s'
      else match split sep s' with
           | [] => [String c EmptyString]
           | piece :: pieces => String c piece :: pieces
           end
  end.

(** [s[0]]: [undefined] on the empty string. *)
Definition first (s : string) : option ascii :=
  match s with
  | EmptyString => None
  | String c _ => Some c
  end.

(** [cs.join('')] of an array of characters; [undefined] joins as nothing. *)
Fixpoint joinChars (cs : list (option ascii)) : string :=
  match cs with
  | [] => EmptyString
  | None :: rest => joinChars rest
  | Some c :: rest => String c (joinChars rest)
  end.

(** [toUpperCase] of one character, on the ASCII letters. *)
Definition upperChar (c : ascii) : ascii :=
  let n := nat_of_ascii c in
  if (Nat.leb 97 n && Nat.leb n 122)%bool then ascii_of_nat (n - 32) else c.

(** ** Numbers *)

(** [Math.round] of the quotient [n / d] of two integers, [d > 0]: the
    integer nearest to the quotient, a tie going up. *)
Definition Math_round_div (n d : Z) : Z := (2 * n + d) / (2 * d).

(** Numbers are IEEE 754 doubles.  A double is written as the rational it
    denotes, and every arithmetic operation rounds its exact result to the
    nearest double, a tie going to the even significand.  The model covers
    the normal range (no overflow to infinity, no subnormals). *)

(** The integer nearest to [q], a tie going to the even one. *)
Definition roundHalfEven (q : Q) : Z :=
  let f := Qfloor q in
  match Qcompare (q - inject_Z f)%Q (1 # 2)%Q with
  | Lt => f
  | Gt => f + 1
  | Eq => if Z.even f then f else f + 1
  end.

(** [floor (log2 (n / d))] for positive [n] and [d]. *)
Definition floorLog2 (n d : Z) : Z :=
  let k := Z.log2 n - Z.log2 d in
  if (if 0 <=? k then d * 2 ^ k <=? n else d <=? n * 2 ^ (- k))
  then k else k - 1.

(** The double nearest to a positive rational: its 53-bit significand is
    [q] scaled by [2 ^ p] into [2^52, 2^53) and rounded. *)
Definition doublePos (q : Q) : Q :=
  let p := 52 - floorLog2 (Qnum q) (Zpos (Qden q)) in
  if 0 <=? p
  then (inject_Z (roundHalfEven (q * inject_Z (2 ^ p))) / inject_Z (2 ^ p))%Q
  else (inject_Z (roundHalfEven (q / inject_Z (2 ^ (- p)))) * inject_Z (2 ^ (- p)))%Q.

Definition double (q : Q) : Q :=
  match Qcompare q 0%Q with
  | Eq => 0%Q
  | Gt => doublePos q
  | Lt => (- doublePos (- q))%Q
  end.

(** [a + b] and [a * b] on doubles. *)
Definition fadd (a b : Q) : Q := double (a + b)%Q.
Definition fmul (a b : Q) : Q := double (a * b)%Q.

(** [Math.floor] of a double. *)
Definition Math_floor (q : Q) : Z := Qfloor q.

(** ** Dates *)

Definition digitChar (d : Z) : ascii := ascii_of_nat (48 + Z.to_nat d).

(** The last [w] decimal digits of [n], put in front of [acc]. *)
Fixpoint padDigits (w : nat) (n : Z) (acc : string) : string :=
  match w with
  | O => acc
  | S w' => padDigits w' (n / 10) (String (digitChar (n mod 10)) acc)
  end.

Definition pad (w : nat) (n : Z) : string := padDigits w n "".

Definition msPerDay : Z := 86400000.

(** Year, month and day of the month of a day number counted from
    1970-01-01, in the proleptic Gregorian calendar. *)
Definition civilFromDays (days : Z) : Z * Z * Z :=
  let z := days + 719468 in
  let era := z / 146097 in
  let doe := z - era * 146097 in
  let yoe := (doe - doe / 1460 + doe / 36524 - doe / 146096) / 365 in
  let doy := doe - (365 * yoe + yoe / 4 - yoe / 100) in
  let mp := (5 * doy + 2) / 153 in
  let d := doy - (153 * mp + 2) / 5 + 1 in
  let m := if mp <? 10 then mp + 3 else mp - 9 in
  let y := yoe + era * 400 + (if m <=? 2 then 1 else 0) in
  (y, m, d).

Definition yearString (y : Z) : string :=
  if (0 <=? y) && (y <=? 9999) then pad 4 y
  else (if y <? 0 then "-" else "+") +:+ pad 6 (Z.abs y).

(** [new Date(t).toISOString()] for a time value [t] in milliseconds since
    the epoch: [YYYY-MM-DDTHH:mm:ss.sssZ].  The clock only produces time
    values inside the range of [Date], so the [RangeError] of an invalid
    date is not part of the model. *)
Definition toISOString (t : Z) : string :=
  let '(y, m, d) := civilFromDays (t / msPerDay) in
  let r := t mod msPerDay in
  yearString y +:+ "-" +:+ pad 2 m +:+ "-" +:+ pad 2 d +:+ "T" +:+
  pad 2 (r / 3600000) +:+ ":" +:+ pad 2 (r / 60000 mod 60) +:+ ":" +:+
  pad 2 (r / 1000 mod 60) +:+ "." +:+ pad 3 (r mod 1000) +:+ "Z".

(** ** Promises *)

(** An [async] function body: it returns, throws, or awaits a timer
    ([await new Promise(r => setTimeout(r, ms))]) and goes on. *)
Inductive Async (A : Type) : Type :=
| Return (a : A)
| Throw (reason : string)
| AwaitTimeout (ms : Z) (k : Async A).
Arguments Return {A} a.
Arguments Throw {A} reason.
Arguments AwaitTimeout {A} ms k.

(** How a promise settles. *)
Inductive Settled (A : Type) : Type :=
| Fulfilled (a : A)
| Rejected (reason : string).
Arguments Fulfilled {A} a.
Arguments Rejected {A} reason.

Fixpoint settle {A} (p : Async A) : Settled A :=
  match p with
  | Return a => Fulfilled a
  | Throw e => Rejected e
  | AwaitTimeout _ k => settle k
  end.

(** The timers a promise waits for before it settles, in order. *)
Fixpoint timers {A} (p : Async A) : list Z :=
  match p with
  | Return _ | Throw _ => []
  | AwaitTimeout ms k => ms :: timers k
  end.

(** [try { x = await p; onOk(x) } catch (e) { onErr(e) }] *)
Fixpoint tryCatch {A B} (p : Async A) (onOk : A -> Async B)
    (onErr : string -> Async B) : Async B :=
  match p with
  | Return a => onOk a
  | Throw e => onErr e
  | AwaitTimeout ms k => AwaitTimeout ms (tryCatch k onOk onErr)
  end.

(** A toast notification. *)
Record Toast : Type := {
  title : string;
  description : string;
  variant : option string
}.

(** ** JSON output *)

Definition dquote : ascii := "034"%char.

Definition hexChar (n : nat) : ascii :=
  if Nat.ltb n 10 then ascii_of_nat (48 + n) else ascii_of_nat (87 + n).

(** The escape of one character inside a JSON string. *)
Definition escapeChar (c : ascii) : string :=
  let n := nat_of_ascii c in
  if Nat.eqb n 34 then String "\" (String dquote "")
  else if Nat.eqb n 92 then "\\"
  else if Nat.eqb n 8 then "\b"
  else if Nat.eqb n 9 then "\t"
  else if Nat.eqb n 10 then "\n"
  else if Nat.eqb n 12 then "\f"
  else if Nat.eqb n 13 then "\r"
  else if Nat.ltb n 32 then
    "\u00" +:+ String (hexChar (Nat.div n 16)) (String (hexChar (Nat.modulo n 16)) "")
  else String c "".

Fixpoint escape (s : string) : string :=
  match s with
  | EmptyString => ""
  | String c s' => escapeChar c +:+ escape s'
  end.

(** [JSON.stringify] of a string. *)
Definition quote (s : string) : string :=
  String dquote (escape s +:+ String dquote "").

(** One [key:value] member of an object; [value] is already JSON text. *)
Definition member (key value : string) : string := quote key +:+ ":" +:+ value.

Fixpoint joinWith (sep : string) (xs : list string) : string :=
  match xs with
  | [] => ""
  | [x] => x
  | x :: xs' => x +:+ sep +:+ joinWith sep xs'
  end.

(** An object from its members; a member whose value is [undefined]
    ([None]) is left out. *)
Definition object (members : list (string * option string)) : string :=
  "{" +:+ joinWith ","
            (omap (fun kv => member kv.1 <$> kv.2) members) +:+ "}".

Definition array (items : list string) : string :=
  "[" +:+ joinWith "," items +:+ "]".

End JS.

Import JS.

(* ===================================================================== *)
(** * src/contexts/AuthContext.tsx *)
(* ===================================================================== *)

Module AuthContext.

Inductive UserRole : Type := teacher | parent | student.

#[global] Instance UserRole_eq_dec : EqDecision UserRole.
Proof. solve_decision. Defined.

Definition roleName (r : UserRole) : string :=
  match r with
  | teacher => "teacher"
  | parent => "parent"
  | student => "student"
  end.

Record User : Type := {
  id : string;
  name : string;
  role : UserRole;
  email : string;
  avatar : option string;
  (* Teacher specific *)
  classId : option string;
  subject : option string;
  (* Parent specific *)
  children : option (list string);
  (* Student specific *)
  parentId : option string;
  grade : option string
}.

(** Mock user data for prototype *)
Definition mockUsers (r : UserRole) : User :=
  match r with
  | teacher =>
      {| id := "teacher-1";
         name := "Ms. Sarah Johnson";
         role := teacher;
         email := "sarah.johnson@edubridge.com";
         avatar := Some "/api/placeholder/40/40";
         classId := Some "class-5a";
         subject := Some "English & Literature";
         children := None; parentId := None; grade := None |}
  | parent =>
      {| id := "parent-1";
         name := "Mr. Raj Sharma";
         role := parent;
         email := "raj.sharma@gmail.com";
         avatar := Some "/api/placeholder/40/40";
         classId := None; subject := None;
         children := Some ["student-1"];
         parentId := None; grade := None |}
  | student =>
      {| id := "student-1";
         name := "Aadhya Sharma";
         role := student;
         email := "aadhya.sharma@student.edubridge.com";
         avatar := Some "/api/placeholder/40/40";
         classId := None; subject := None; children := None;
         parentId := Some "parent-1";
         grade := Some "5th Grade" |}
  end.

(** [JSON.stringify] of a user: the members in the order the object
    literals list them, the absent ones left out. *)
Definition JSON_stringify (u : User) : string :=
  JS.object
    [ ("id", Some (JS.quote (id u)));
      ("name", Some (JS.quote (name u)));
      ("role", Some (JS.quote (roleName (role u))));
      ("email", Some (JS.quote (email u)));
      ("avatar", JS.quote <$> avatar u);
      ("classId", JS.quote <$> classId u);
      ("subject", JS.quote <$> subject u);
      ("children", (fun cs => JS.array (JS.quote <$> cs)) <$> children u);
      ("parentId", JS.quote <$> parentId u);
      ("grade", JS.quote <$> grade u) ].

(** The provider's two [useState] cells and the browser's [localStorage]
    next to them. *)
Record State : Type := {
  user : option User;
  loading : bool;
  localStorage : gmap string string
}.

Definition setUser (u : option User) (s : State) : State :=
  {| user := u; loading := loading s; localStorage := localStorage s |}.

Definition setLoading (b : bool) (s : State) : State :=
  {| user := user s; loading := b; localStorage := localStorage s |}.

Definition getItem (key : string) (s : State) : option string :=
  localStorage s !! key.

(** [localStorage.setItem] in a browser that accepts the write; the write
    under a quota, which can throw, is [StorageQuota.setItem]. *)
Definition setItem (key value : string) (s : State) : State :=
  {| user := user s; loading := loading s;
     localStorage := <[key := value]> (localStorage s) |}.

Definition removeItem (key : string) (s : State) : State :=
  {| user := user s; loading := loading s;
     localStorage := delete key (localStorage s) |}.

(** [useState<User | null>(null)], [useState(true)], over a given storage. *)
Definition initial (storage : gmap string string) : State :=
  {| user := None; loading := true; localStorage := storage |}.

(** What a component body or an effect does: it finishes, or an exception
    leaves it; both with the state reached. *)
Inductive Completion : Type :=
| Normal (s : State)
| Abrupt (s : State).

Definition stateOf (c : Completion) : State :=
  match c with Normal s | Abrupt s => s end.

Section Effect.

(** [JSON.parse] at the type [User | null]: [None] when it throws,
    [Some None] for [null], [Some (Some u)] for a user object. *)
Variable JSON_parse : string -> option (option User).

(** The mount effect: check if the user is already logged in. *)
Definition useEffect (s : State) : Completion :=
  match getItem "edubridge-user" s with
  | Some savedUser =>
      if String.eqb savedUser "" then Normal (setLoading false s)
      else match JSON_parse savedUser with
           | Some u => Normal (setLoading false (setUser u s))
           | None => Abrupt s
           end
  | None => Normal (setLoading false s)
  end.

End Effect.

Definition login (email password : string) (role : UserRole) (s : State)
  : Async State :=
  let s := setLoading true s in
  (* Simulate API call *)
  AwaitTimeout 1000
    ((* Mock authentication - in real app, validate credentials *)
     let mockUser := mockUsers role in
     let s := setUser (Some mockUser) s in
     let s := setItem "edubridge-user" (JSON_stringify mockUser) s in
     Return (setLoading false s)).

Definition logout (s : State) : State :=
  let s := setUser None s in
  removeItem "edubridge-user" s.

(** The context value, without its two function members. *)
Record AuthContextType : Type := {
  ctx_user : option User;
  isAuthenticated : bool;
  ctx_loading : bool
}.

Definition value (s : State) : AuthContextType :=
  {| ctx_user := user s;
     isAuthenticated := bool_decide (is_Some (user s));
     ctx_loading := loading s |}.

End AuthContext.

(* ===================================================================== *)
(** * src/components/ProtectedRoute.tsx *)
(* ===================================================================== *)

Module ProtectedRoute.
Import AuthContext.

(** What the component returns. *)
Inductive Element : Type :=
| LoadingSpinner
| Navigate (to : string)
| Children.

Definition roleDashboards (r : UserRole) : string :=
  match r with
  | teacher => "/dashboard"
  | parent => "/dashboard"
  | student => "/dashboard"
  end.

Definition ProtectedRoute (allowedRoles : option (list UserRole))
    (ctx : AuthContextType) : Element :=
  if ctx_loading ctx then LoadingSpinner
  else if negb (isAuthenticated ctx) then
    (* Redirect to login page with return url *)
    Navigate "/login"
  else
    (* Check if user role is allowed *)
    match allowedRoles, ctx_user ctx with
    | Some roles, Some u =>
        if negb (JS.arrayIncludes roles (role u))
        then Navigate (roleDashboards (role u))
        else Children
    | _, _ => Children
    end.

End ProtectedRoute.

(* ===================================================================== *)
(** * src/components/AppSidebar.tsx *)
(* ===================================================================== *)

Module AppSidebar.
Import AuthContext.

Inductive Icon : Type :=
| BarChart3 | FileText | TrendingUp | Settings | Users | Home
| BookOpen | Award | MessageSquare.

Record MenuItem : Type := { title : string; url : string; icon : Icon }.

Definition menuItems (r : UserRole) : list MenuItem :=
  match r with
  | teacher =>
      [ {| title := "Class Overview"; url := "/dashboard"; icon := BarChart3 |};
        {| title := "Student Papers"; url := "/papers"; icon := FileText |};
        {| title := "AI Feedback"; url := "/feedback"; icon := TrendingUp |};
        {| title := "Students"; url := "/students"; icon := Users |};
        {| title := "Settings"; url := "/settings"; icon := Settings |} ]
  | parent =>
      [ {| title := "Home"; url := "/dashboard"; icon := Home |};
        {| title := "Progress"; url := "/progress"; icon := TrendingUp |};
        {| title := "Messages"; url := "/messages"; icon := MessageSquare |};
        {| title := "Settings"; url := "/settings"; icon := Settings |} ]
  | student =>
      [ {| title := "Dashboard"; url := "/dashboard"; icon := Home |};
        {| title := "My Progress"; url := "/my-progress"; icon := Award |};
        {| title := "Assignments"; url := "/assignments"; icon := BookOpen |};
        {| title := "Settings"; url := "/settings"; icon := Settings |} ]
  end.

(** One rendered [NavLink] of the navigation group. *)
Record NavLink : Type := {
  to : string;
  end_ : bool;
  link_icon : Icon;
  label : string
}.

(** The rendered sidebar: the portal name of the header, the navigation
    menu, and the name and email of the footer. *)
Record Sidebar : Type := {
  portal : UserRole;
  navigation : list NavLink;
  footer_name : string;
  footer_email : string
}.

Definition AppSidebar (user : option User) : option Sidebar :=
  match user with
  | None => None
  | Some user =>
      let items := menuItems (role user) in
      Some {| portal := role user;
              navigation :=
                (fun item => {| to := url item;
                                end_ := String.eqb (url item) "/dashboard";
                                link_icon := icon item;
                                label := title item |}) <$> items;
              footer_name := name user;
              footer_email := email user |}
  end.

(** The avatar fallback: [user.name.split(' ').map(n => n[0]).join('')]. *)
Definition initials (name : string) : string :=
  joinChars (first <$> split " " name).

End AppSidebar.

(* ===================================================================== *)
(** * src/App.tsx *)
(* ===================================================================== *)

Module App.
Import AuthContext.

(** What a route renders. *)
Inductive Page : Type :=
| TeacherDashboard
| StudentPapers
| ParentDashboard
| StudentDashboard
| ComingSoon (heading : string)
| Navigate (to : string).

Fixpoint dropTrailingSlashes (s : string) : string :=
  match s with
  | EmptyString => EmptyString
  | String c s' =>
      let r := dropTrailingSlashes s' in
      if Ascii.eqb c "/" && String.eqb r "" then "" else String c r
  end.

(** The router's match of a route path against the location: ["*"]
    matches every location; any other path is compared without regard to
    letter case and to slashes at the end of the location. *)
Definition matchPath (path pathname : string) : bool :=
  String.eqb path "*" ||
  String.eqb (JS.toLowerCase (dropTrailingSlashes pathname)) (JS.toLowerCase path).

(** [<Routes>]: the element of the route that matches; the routes are
    listed from the most specific to ["*"]. *)
Fixpoint Routes (routes : list (string * Page)) (pathname : string)
  : option Page :=
  match routes with
  | [] => None
  | (path, element) :: rest =>
      if matchPath path pathname then Some element else Routes rest pathname
  end.

(** Dashboard Router Component; [None] when no route matches. *)
Definition DashboardRouter (user : option User) (pathname : string)
  : option Page :=
  match user with
  | None => Some (Navigate "/login")
  | Some user =>
      (* Route based on user role *)
      match role user with
      | teacher =>
          Routes [ ("/dashboard", TeacherDashboard);
                   ("/papers", StudentPapers);
                   ("/feedback", ComingSoon "AI Feedback Reports");
                   ("/students", ComingSoon "Students Management");
                   ("/settings", ComingSoon "Settings");
                   ("*", Navigate "/dashboard") ] pathname
      | parent =>
          Routes [ ("/dashboard", ParentDashboard);
                   ("/progress", ComingSoon "Detailed Progress");
                   ("/messages", ComingSoon "Messages");
                   ("/settings", ComingSoon "Settings");
                   ("*", Navigate "/dashboard") ] pathname
      | student =>
          Routes [ ("/dashboard", StudentDashboard);
                   ("/my-progress", ComingSoon "My Progress");
                   ("/assignments", ComingSoon "Assignments");
                   ("/settings", ComingSoon "Settings");
                   ("*", Navigate "/dashboard") ] pathname
      end
  end.

End App.

(* ===================================================================== *)
(** * src/pages/Login.tsx *)
(* ===================================================================== *)

Module Login.
Import AuthContext.

(** What [handleLogin] leaves behind: the toasts it raised, the provider
    state, and the component's [isLoggingIn] flag. *)
Record Outcome : Type := {
  toasts : list Toast;
  auth : State;
  isLoggingIn : bool
}.

Definition missingInformation : Toast :=
  {| title := "Missing Information";
     description := "Please enter both email and password.";
     variant := Some "destructive" |}.

Definition welcome (selectedRole : UserRole) : Toast :=
  {| title := "Welcome to EduBridge!";
     description := "Successfully logged in as " +:+ roleName selectedRole +:+ ".";
     variant := None |}.

Definition loginFailed : Toast :=
  {| title := "Login Failed";
     description := "Please check your credentials and try again.";
     variant := Some "destructive" |}.

Definition handleLogin (email password : string) (selectedRole : UserRole)
    (isLoggingIn0 : bool) (s : State) : Async Outcome :=
  if String.eqb email "" || String.eqb password "" then
    Return {| toasts := [missingInformation]; auth := s;
              isLoggingIn := isLoggingIn0 |}
  else
    (* setIsLoggingIn(true) *)
    tryCatch (login email password selectedRole s)
      (fun s' =>
         Return {| toasts := [welcome selectedRole]; auth := s';
                   isLoggingIn := false |})
      (fun _ =>
         Return {| toasts := [loginFailed]; auth := setLoading true s;
                   isLoggingIn := false |}).

(** What the page renders: the redirect of a signed-in visitor, or the form
    with its submit button. *)
Inductive View : Type :=
| Navigate (to : string)
| LoginForm (disabled : bool) (buttonLabel : string).

Definition Login (ctx : AuthContextType) (isLoggingIn : bool) : View :=
  if isAuthenticated ctx then Navigate "/dashboard"
  else LoginForm (isLoggingIn || ctx_loading ctx)
         (if isLoggingIn then "Signing in..." else "Sign In").

Definition demoCredentials (r : UserRole) : string * string :=
  match r with
  | teacher => ("teacher@demo.com", "demo123")
  | parent => ("parent@demo.com", "demo123")
  | student => ("student@demo.com", "demo123")
  end.

End Login.

(* ===================================================================== *)
(** * Signing in when the browser limits the storage *)
(* ===================================================================== *)

Module StorageQuota.
Import AuthContext.

(** The space a storage takes: the characters of its keys and values. *)
Definition storageSize (m : gmap string string) : nat :=
  map_fold (fun key value size =>
              (String.length key + String.length value + size)%nat) 0%nat m.

(** [localStorage.setItem(key, value)] in a browser that grants the page
    [quota] characters: the write is done when the storage with the new
    value fits, and throws [QuotaExceededError], here [None], when it does
    not. *)
Definition setItem (quota : nat) (key value : string) (s : State)
  : option State :=
  let s' := AuthContext.setItem key value s in
  if (storageSize (localStorage s') <=? quota)%nat then Some s' else None.

(** [login] of [AuthContext.tsx] over such a storage.  The promise is
    fulfilled on [Normal] and rejected on [Abrupt], when [setItem] throws;
    both carry the provider state reached: after the exception the user is
    set already and [setLoading(false)] is not reached. *)
Definition login (quota : nat) (email password : string) (role : UserRole)
    (s : State) : Async Completion :=
  let s := setLoading true s in
  (* Simulate API call *)
  AwaitTimeout 1000
    (let mockUser := mockUsers role in
     let s := setUser (Some mockUser) s in
     match setItem quota "edubridge-user" (JSON_stringify mockUser) s with
     | Some s => Return (Normal (setLoading false s))
     | None => Return (Abrupt s)
     end).


(** [handleLogin] of [Login.tsx] over such a storage: the [catch] runs when
    the login promise rejects. *)
Definition handleLogin (quota : nat) (email password : string)
    (selectedRole : UserRole) (isLoggingIn0 : bool) (s : State)
  : Async Login.Outcome :=
  if String.eqb email "" || String.eqb password "" then
    Return {| Login.toasts := [Login.missingInformation]; Login.auth := s;
              Login.isLoggingIn := isLoggingIn0 |}
  else
    (* setIsLoggingIn(true) *)
    tryCatch (login quota email password selectedRole s)
      (fun completion =>
         match completion with
         | Normal s' =>
             Return {| Login.toasts := [Login.welcome selectedRole];
                       Login.auth := s'; Login.isLoggingIn := false |}
         | Abrupt s' =>
             (* catch (error) *)
             Return {| Login.toasts := [Login.loginFailed];
                       Login.auth := s'; Login.isLoggingIn := false |}
         end)
      (fun _ =>
         Return {| Login.toasts := [Login.loginFailed];
                   Login.auth := setLoading true s;
                   Login.isLoggingIn := false |}).

End StorageQuota.

(* ===================================================================== *)
(** * src/pages/teacher/AIFeedback.tsx *)
(* ===================================================================== *)

Module AIFeedback.

Inductive Status : Type := draft | final.

#[global] Instance Status_eq_dec : EqDecision Status.
Proof. solve_decision. Defined.

Record FeedbackItem : Type := {
  id : string;                    (* Unique ID for the feedback entry *)
  studentName : string;           (* Student the feedback belongs to *)
  subject : string;               (* Subject / category *)
  submissionTitle : string;       (* Title of the work *)
  aiScore : Z;                    (* Overall AI quality or proficiency score *)
  strengths : list string;        (* Bullet points of strengths *)
  improvements : list string;     (* Bullet points of suggested improvements *)
  generatedAt : string;           (* ISO date string when feedback was generated *)
  status : Status;                (* Whether teacher has finalized / approved *)
  tags : list string              (* Helpful classification tags *)
}.

(** Mock async data fetch.  [Date_now k] is what the [k]-th call of
    [Date.now()] inside this run returns. *)
Definition fetchFeedback (Date_now : nat -> Z) : Async (list FeedbackItem) :=
  (* Simulate network latency *)
  AwaitTimeout 600
    (Return
       [ {| id := "fb-1";
            studentName := "Aadhya Sharma";
            subject := "English";
            submissionTitle := "Creative Writing: My Summer";
            aiScore := 92;
            strengths := ["Vivid imagery"; "Strong narrative voice"; "Excellent structure"];
            improvements := ["Minor grammar corrections"; "Expand conclusion"];
            generatedAt := toISOString (Date_now 0%nat - 1000 * 60 * 60);
            status := final;
            tags := ["writing"; "creativity"] |};
         {| id := "fb-2";
            studentName := "Arjun Patel";
            subject := "Math";
            submissionTitle := "Problem Set: Fractions & Ratios";
            aiScore := 78;
            strengths := ["Correct methodology"; "Good logical progression"];
            improvements := ["Improve fraction simplification speed"; "Show intermediate steps"];
            generatedAt := toISOString (Date_now 1%nat - 1000 * 60 * 60 * 5);
            status := draft;
            tags := ["math"; "practice"] |};
         {| id := "fb-3";
            studentName := "Diya Singh";
            subject := "Science";
            submissionTitle := "Report: Plant Life Cycle";
            aiScore := 85;
            strengths := ["Clear explanation"; "Accurate diagrams"];
            improvements := ["Add sources"; "Clarify germination stage"];
            generatedAt := toISOString (Date_now 2%nat - 1000 * 60 * 60 * 24);
            status := final;
            tags := ["science"; "report"] |} ]).

Record Regenerated : Type := {
  result_id : string;
  newScore : Z;
  timestamp : string
}.

(** Mock mutation: regenerate feedback.  [Math_random] is the value of
    [Math.random()], [now] the time value of [new Date()]. *)
Definition regenerateFeedback (Math_random : Q) (now : Z) (id : string)
  : Async Regenerated :=
  AwaitTimeout 900
    (Return {| result_id := id;
               newScore := Math_floor (fadd 75 (fmul Math_random 20))%Q;
               timestamp := toISOString now |}).

(** The function mapped over the cached list: an item with the result's
    id gets the new score, the new timestamp and the status ['draft']. *)
Definition regen (result : Regenerated) (item : FeedbackItem) : FeedbackItem :=
  if String.eqb (id item) (result_id result)
  then {| id := id item;
          studentName := studentName item;
          subject := subject item;
          submissionTitle := submissionTitle item;
          aiScore := newScore result;
          strengths := strengths item;
          improvements := improvements item;
          generatedAt := timestamp result;
          status := draft;
          tags := tags item |}
  else item.

(** The updater that [onSuccess] hands to [queryClient.setQueryData]. *)
Definition updater (result : Regenerated) (old : option (list FeedbackItem))
  : option (list FeedbackItem) :=
  match old with
  | None => None
  | Some old => Some (regen result <$> old)
  end.

Definition regenerated : Toast :=
  {| title := "Feedback regenerated";
     description := "AI provided an updated analysis.";
     variant := None |}.

Definition regenerationFailed : Toast :=
  {| title := "Regeneration failed";
     description := "Please try again shortly.";
     variant := Some "destructive" |}.

(** The query cache entry ['ai-feedback'] and the toasts raised. *)
Record Page : Type := {
  data : option (list FeedbackItem);
  toasts : list Toast
}.

Definition onSuccess (result : Regenerated) (pg : Page) : Page :=
  (* Optimistically update the existing cached list with new score + updated timestamp *)
  {| data := updater result (data pg);
     toasts := toasts pg ++ [regenerated] |}.

Definition onError (pg : Page) : Page :=
  {| data := data pg; toasts := toasts pg ++ [regenerationFailed] |}.

(** [regenMutation.mutate(id)]: run the mutation function, then
    [onSuccess] on its result or [onError] on its failure. *)
Definition regenMutation (Math_random : Q) (now : Z) (id : string) (pg : Page)
  : Async Page :=
  tryCatch (regenerateFeedback Math_random now id)
    (fun result => Return (onSuccess result pg))
    (fun _ => Return (onError pg)).

Record Summary : Type := {
  avgScore : Z;
  total : Z;
  drafts : Z;
  finals : Z
}.

(** Simple aggregations for summary cards *)
Definition summary (data : option (list FeedbackItem)) : Summary :=
  match data with
  | None | Some [] => {| avgScore := 0; total := 0; drafts := 0; finals := 0 |}
  | Some data =>
      let total := Z.of_nat (length data) in
      let avgScore :=
        Math_round_div (fold_left (fun a b => a + aiScore b) data 0) total in
      let drafts :=
        Z.of_nat (length (filter (fun i => status i = draft) data)) in
      let finals := total - drafts in
      {| avgScore := avgScore; total := total; drafts := drafts; finals := finals |}
  end.

(** The status filter of the page: ['all' | 'draft' | 'final']. *)
Inductive StatusFilter : Type := all | only (s : Status).

#[global] Instance StatusFilter_eq_dec : EqDecision StatusFilter.
Proof. solve_decision. Defined.

Definition matchesItem (search subjectFilter : string)
    (statusFilter : StatusFilter) (item : FeedbackItem) : bool :=
  let matchesSearch :=
    some (fun v => includes (toLowerCase v) (toLowerCase search))
      [studentName item; submissionTitle item; subject item] in
  let matchesSubject :=
    String.eqb subjectFilter "all" ||
    String.eqb (toLowerCase (subject item)) subjectFilter in
  let matchesStatus :=
    bool_decide (statusFilter = all) ||
    bool_decide (only (status item) = statusFilter) in
  matchesSearch && matchesSubject && matchesStatus.

(** Compute derived filtered list *)
Definition filtered (data : option (list FeedbackItem))
    (search subjectFilter : string) (statusFilter : StatusFilter)
  : list FeedbackItem :=
  match data with
  | None => []
  | Some data => List.filter (matchesItem search subjectFilter statusFilter) data
  end.

(** Selected item for detail view:
    [filtered.find(f => f.id === selectedId) || filtered[0] || null]. *)
Definition selected (filtered : list FeedbackItem) (selectedId : option string)
  : option FeedbackItem :=
  match List.find (fun f => match selectedId with
                            | Some i => String.eqb (id f) i
                            | None => false
                            end) filtered with
  | Some f => Some f
  | None => match filtered with
            | f :: _ => Some f
            | [] => None
            end
  end.

End AIFeedback.

(* ===================================================================== *)
(** * src/pages/teacher/StudentPapers.tsx *)
(* ===================================================================== *)

Module StudentPapers.

Record Paper : Type := {
  id : Z;
  studentName : string;
  subject : string;
  uploadDate : string;
  status : string;
  aiScore : option Z;
  grammarScore : option Z;
  creativityScore : option Z;
  handwritingScore : option Z;
  feedback : option string
}.

(** Mock data for student papers *)
Definition mockPapers : list Paper :=
  [ {| id := 1;
       studentName := "Aadhya Sharma";
       subject := "English Essay";
       uploadDate := "2024-01-20";
       status := "reviewed";
       aiScore := Some 92;
       grammarScore := Some 88;
       creativityScore := Some 95;
       handwritingScore := Some 85;
       feedback := Some "Excellent creative expression with minor grammar improvements needed." |};
    {| id := 2;
       studentName := "Arjun Patel";
       subject := "Math Problem Set";
       uploadDate := "2024-01-19";
       status := "pending";
       aiScore := None;
       grammarScore := None;
       creativityScore := None;
       handwritingScore := None;
       feedback := None |};
    {| id := 3;
       studentName := "Diya Singh";
       subject := "Science Report";
       uploadDate := "2024-01-18";
       status := "in-progress";
       aiScore := Some 87;
       grammarScore := Some 90;
       creativityScore := Some 82;
       handwritingScore := Some 89;
       feedback := Some "Good scientific reasoning, work on conclusion clarity." |} ].

Definition matches (searchTerm statusFilter : string) (paper : Paper) : bool :=
  let matchesSearch :=
    includes (toLowerCase (studentName paper)) (toLowerCase searchTerm) ||
    includes (toLowerCase (subject paper)) (toLowerCase searchTerm) in
  let matchesStatus :=
    String.eqb statusFilter "all" || String.eqb (status paper) statusFilter in
  matchesSearch && matchesStatus.

Definition filteredPapers (searchTerm statusFilter : string) : list Paper :=
  List.filter (matches searchTerm statusFilter) mockPapers.

Definition tryAdjusting : string :=
  "Try adjusting your search or filter criteria.".

Definition uploadFirst : string :=
  "Upload your first batch of student papers to get started.".

(** The text under 'No papers found', shown when the filtered list is
    empty. *)
Definition noPapersFound (searchTerm statusFilter : string) : option string :=
  if Nat.eqb (length (filteredPapers searchTerm statusFilter)) 0 then
    Some (if negb (String.eqb searchTerm "") || negb (String.eqb statusFilter "all")
          then tryAdjusting else uploadFirst)
  else None.

End StudentPapers.

(* ===================================================================== *)
(** * src/components/DashboardLayout.tsx *)
(* ===================================================================== *)

Module DashboardLayout.
Import AuthContext.

(** [s.charAt(0).toUpperCase() + s.slice(1)] *)
Definition capitalize (s : string) : string :=
  match s with
  | EmptyString => EmptyString
  | String c s' => String (upperChar c) s'
  end.

(** [name.split(' ')[0]] *)
Definition firstName (name : string) : string :=
  match split " " name with
  | piece :: _ => piece
  | [] => EmptyString
  end.

(** The rendered layout: the sidebar, the two texts of the header (the
    portal title is what follows the product name), and the page put in the
    main area. *)
Record Layout (A : Type) : Type := {
  sidebar : option AppSidebar.Sidebar;
  portalTitle : string;
  welcomeBack : string;
  content : A
}.
Arguments sidebar {A} _.
Arguments portalTitle {A} _.
Arguments welcomeBack {A} _.
Arguments content {A} _.

(** [None] is the [null] rendered without a user. *)
Definition DashboardLayout {A} (user : option User) (children : A)
  : option (Layout A) :=
  match user with
  | None => None
  | Some u =>
      Some {| sidebar := AppSidebar.AppSidebar user;
              portalTitle := capitalize (roleName (role u)) +:+ " Portal";
              welcomeBack := "Welcome back, " +:+ firstName (name u);
              content := children |}
  end.

End DashboardLayout.

(* ===================================================================== *)
(** * src/App.tsx: the routes of the application *)
(* ===================================================================== *)

Module Root.
Import AuthContext.

(** What the application shows at a location. *)
Inductive Screen : Type :=
| LoginPage (disabled : bool) (buttonLabel : string)
| Spinner
| Blank
| Portal (layout : DashboardLayout.Layout (option App.Page))
| Redirect (to : string).

(** The two routes of [App]: [/login] renders [Login]; every other location
    renders [DashboardRouter] inside [DashboardLayout] inside
    [ProtectedRoute], which is given no [allowedRoles].  A [Navigate] in the
    rendered tree is a redirect; a layout whose content is [None] has no
    matching route inside. *)
Definition App (s : State) (isLoggingIn : bool) (pathname : string) : Screen :=
  let ctx := value s in
  if App.matchPath "/login" pathname then
    match Login.Login ctx isLoggingIn with
    | Login.Navigate to => Redirect to
    | Login.LoginForm disabled buttonLabel => LoginPage disabled buttonLabel
    end
  else
    match ProtectedRoute.ProtectedRoute None ctx with
    | ProtectedRoute.LoadingSpinner => Spinner
    | ProtectedRoute.Navigate to => Redirect to
    | ProtectedRoute.Children =>
        match DashboardLayout.DashboardLayout (ctx_user ctx)
                (App.DashboardRouter (ctx_user ctx) pathname) with
        | None => Blank
        | Some layout =>
            match DashboardLayout.content layout with
            | Some (App.Navigate to) => Redirect to
            | _ => Portal layout
            end
        end
    end.

(** The location after following at most [fuel] redirects, and the screen
    shown there. *)
Fixpoint settleLocation (fuel : nat) (s : State) (isLoggingIn : bool)
    (pathname : string) : string * Screen :=
  match App s isLoggingIn pathname, fuel with
  | Redirect to, S fuel' => settleLocation fuel' s isLoggingIn to
  | screen, _ => (pathname, screen)
  end.

End Root.

(* ===================================================================== *)
(** * src/pages/teacher/TeacherSettings.tsx: the submit handlers *)
(* ===================================================================== *)

Module TeacherSettings.

(** The flags of the component, the [apiKey] field of the API form, and
    the toasts raised. *)
Record Settings : Type := {
  isSubmitting : bool;
  isKeyRegenPending : bool;
  apiKey : string;
  toasts : list Toast
}.


Definition setIsKeyRegenPending (b : bool) (st : Settings) : Settings :=
  {| isSubmitting := isSubmitting st; isKeyRegenPending := b;
     apiKey := apiKey st; toasts := toasts st |}.

Definition setApiKey (k : string) (st : Settings) : Settings :=
  {| isSubmitting := isSubmitting st; isKeyRegenPending := isKeyRegenPending st;
     apiKey := k; toasts := toasts st |}.

Definition toast (title description : string) (st : Settings) : Settings :=
  {| isSubmitting := isSubmitting st; isKeyRegenPending := isKeyRegenPending st;
     apiKey := apiKey st;
     toasts := toasts st ++
               [ {| title := title; description := description; variant := None |} ] |}.







(** [random36 k] is the text of the [k]-th [Math.random().toString(36)]. *)
Definition regenerateApiKey (random36 : nat -> string) (st : Settings)
  : Async Settings :=
  let st := setIsKeyRegenPending true st in
  (* Simulate API call *)
  AwaitTimeout 1200
    (let newKey := "sk_edb_" +:+ String.substring 2 13 (random36 0%nat) +:+
                   String.substring 2 13 (random36 1%nat) in
     let st := setApiKey newKey st in
     let st := toast "API key regenerated"
                 "Your new API key has been created. The old key is now invalid." st in
     Return (setIsKeyRegenPending false st)).

End TeacherSettings.

(* ===================================================================== *)
(** * The vocabulary of the statements *)
(* ===================================================================== *)

(** [t] occurs in [s]: some text before it and some text after it make up [s]. *)
Definition occursIn (t s : string) : Prop :=
  exists before after, s = before +:+ t +:+ after.

(** The role [r] passes the [allowedRoles] property of a route. *)
Definition roleAllowed (allowedRoles : option (list AuthContext.UserRole))
    (r : AuthContext.UserRole) : Prop :=
  match allowedRoles with
  | None => True
  | Some roles => r ∈ roles
  end.

(** The dashboard page that belongs to a role. *)
Definition dashboardOf (r : AuthContext.UserRole) : App.Page :=
  match r with
  | AuthContext.teacher => App.TeacherDashboard
  | AuthContext.parent => App.ParentDashboard
  | AuthContext.student => App.StudentDashboard
  end.

(** The number of entries of the navigation menu of a role. *)
Definition menuSize (r : AuthContext.UserRole) : nat :=
  match r with
  | AuthContext.teacher => 5%nat
  | AuthContext.parent => 4%nat
  | AuthContext.student => 4%nat
  end.

(** The logged-out state: no user, not authenticated, nothing saved under
    ['edubridge-user']. *)
Definition loggedOut (s : AuthContext.State) : Prop :=
  AuthContext.user s = None /\
  AuthContext.isAuthenticated (AuthContext.value s) = false /\
  AuthContext.localStorage s !! "edubridge-user" = None.

(** A feedback item with its [generatedAt] replaced. *)
Definition withGeneratedAt (g : string) (item : AIFeedback.FeedbackItem)
  : AIFeedback.FeedbackItem :=
  {| AIFeedback.id := AIFeedback.id item;
     AIFeedback.studentName := AIFeedback.studentName item;
     AIFeedback.subject := AIFeedback.subject item;
     AIFeedback.submissionTitle := AIFeedback.submissionTitle item;
     AIFeedback.aiScore := AIFeedback.aiScore item;
     AIFeedback.strengths := AIFeedback.strengths item;
     AIFeedback.improvements := AIFeedback.improvements item;
     AIFeedback.generatedAt := g;
     AIFeedback.status := AIFeedback.status item;
     AIFeedback.tags := AIFeedback.tags item |}.

(** A page proper, not a redirect. *)
Definition isPage (p : App.Page) : Prop :=
  match p with
  | App.Navigate _ => False
  | _ => True
  end.

(** Every score of the list is a score out of 100. *)
Definition scoresValid (l : list AIFeedback.FeedbackItem) : Prop :=
  Forall (fun item => 0 <= AIFeedback.aiScore item <= 100) l.

(** The sum of the scores of a feedback list. *)
Definition scoreSum (l : list AIFeedback.FeedbackItem) : Z :=
  foldr (fun item acc => AIFeedback.aiScore item + acc) 0 l.

(* ===================================================================== *)
(** * Properties of the runtime functions *)
(* ===================================================================== *)

Section RuntimeFacts.

Lemma startsWith_spec (s t : string) :
  startsWith s t = true <-> exists rest, s = t +:+ rest.
Proof.
  revert s. induction t as [|b t IH]; intros s; simpl.
  - split; [intros _; exists s; reflexivity | intros _; reflexivity].
  - destruct s as [|a s].
    + split; [discriminate | intros [rest H]; discriminate H].
    + rewrite andb_true_iff, IH. split.
      * intros [Hab [rest ->]]. apply Ascii.eqb_eq in Hab as ->.
        exists rest. reflexivity.
      * intros [rest H]. injection H as -> ->. split.
        -- apply Ascii.eqb_refl.
        -- exists rest. reflexivity.
Qed.

Lemma includes_spec (s t : string) :
  includes s t = true <-> occursIn t s.
Proof.
  unfold occursIn. induction s as [|a s IH].
  - cbn [includes]. rewrite orb_false_r, startsWith_spec. split.
    + intros [rest H]. exists "", rest. exact H.
    + intros [[|c before] [after H]].
      * exists after. exact H.
      * discriminate H.
  - cbn [includes]. rewrite orb_true_iff, startsWith_spec, IH. split.
    + intros [[rest H] | (before & after & H)].
      * exists "", rest. exact H.
      * exists (String a before), after. simpl. now rewrite H.
    + intros [[|c before] [after H]].
      * left. exists after. exact H.
      * right. simpl in H. injection H as _ H.
        exists before, after. exact H.
Qed.

Lemma filter_sublist {A} (p : A -> bool) (l : list A) :
  List.filter p l `sublist_of` l.
Proof.
  induction l as [|x l IH]; simpl.
  - constructor.
  - destruct (p x); constructor; exact IH.
Qed.

Lemma settle_tryCatch {A B} (p : Async A) (onOk : A -> Async B)
    (onErr : string -> Async B) :
  settle (tryCatch p onOk onErr) =
  match settle p with
  | Fulfilled a => settle (onOk a)
  | Rejected e => settle (onErr e)
  end.
Proof. induction p; simpl; auto. Qed.

End RuntimeFacts.

(* ===================================================================== *)
(** * The search filter of the paper list *)
(* ===================================================================== *)

Module StudentPapersFacts.
Import StudentPapers.

Lemma matches_spec (searchTerm statusFilter : string) (paper : Paper) :
  matches searchTerm statusFilter paper = true <->
  (occursIn (toLowerCase searchTerm) (toLowerCase (studentName paper)) \/
   occursIn (toLowerCase searchTerm) (toLowerCase (subject paper))) /\
  (statusFilter = "all" \/ statusFilter = status paper).
Proof.
  unfold matches.
  rewrite andb_true_iff, !orb_true_iff, !includes_spec, !String.eqb_eq.
  intuition congruence.
Qed.

(** C5. For every search term and status filter, a paper of [mockPapers] is
    in [filteredPapers] exactly when the lowercased term occurs in its
    lowercased student name or subject and the status filter is ["all"] or
    the paper's status; the result keeps the order of [mockPapers]; the
    empty term with the filter ["all"] selects every paper. *)
Theorem filteredPapers_spec (searchTerm statusFilter : string) :
  (forall paper : Paper,
      paper ∈ filteredPapers searchTerm statusFilter <->
      paper ∈ mockPapers /\
      (occursIn (toLowerCase searchTerm) (toLowerCase (studentName paper)) \/
       occursIn (toLowerCase searchTerm) (toLowerCase (subject paper))) /\
      (statusFilter = "all" \/ statusFilter = status paper)) /\
  filteredPapers searchTerm statusFilter `sublist_of` mockPapers /\
  filteredPapers "" "all" = mockPapers.
Proof.
  split; [|split].
  - intros paper. unfold filteredPapers.
    rewrite !list_elem_of_In, filter_In, matches_spec. reflexivity.
  - apply filter_sublist.
  - reflexivity.
Qed.

End StudentPapersFacts.

(* ===================================================================== *)
(** * Authentication and routing by role *)
(* ===================================================================== *)

Module AuthFacts.
Import AuthContext.

Lemma settle_login (email password : string) (role : UserRole) (s : State) :
  settle (login email password role s) =
  Fulfilled
    {| user := Some (mockUsers role);
       loading := false;
       localStorage :=
         <["edubridge-user" := JSON_stringify (mockUsers role)]> (localStorage s) |}.
Proof. reflexivity. Qed.

Lemma role_mockUsers (r : UserRole) : role (mockUsers r) = r.
Proof. destruct r; reflexivity. Qed.

(** C1. For every email, password and role, [login] resolves and leaves
    the hard-coded record [mockUsers role] as the current user, so that
    [isAuthenticated] is true; the email and the password have no effect
    on the result, which is looked up by the role alone. *)
Theorem login_is_lookup_by_role (email password : string) (r : UserRole)
    (s : State) :
  (exists s' : State,
      settle (login email password r s) = Fulfilled s' /\
      user s' = Some (mockUsers r) /\
      isAuthenticated (value s') = true) /\
  role (mockUsers r) = r /\
  (forall email' password' : string,
      login email' password' r s = login email password r s).
Proof.
  split; [|split].
  - eexists. split; [apply settle_login|]. split; reflexivity.
  - apply role_mockUsers.
  - reflexivity.
Qed.

End AuthFacts.

Module ProtectedRouteFacts.
Import AuthContext ProtectedRoute.

Lemma arrayIncludes_spec {A} `{EqDecision A} (xs : list A) (x : A) :
  arrayIncludes xs x = true <-> x ∈ xs.
Proof.
  unfold arrayIncludes. rewrite existsb_exists. split.
  - intros (y & Hy & Heq). apply bool_decide_eq_true in Heq as ->.
    now apply list_elem_of_In.
  - intros Hin. exists x. split; [now apply list_elem_of_In|].
    now apply bool_decide_eq_true.
Qed.

(** C2. [ProtectedRoute] renders its children in exactly one case: loading
    is finished, a user is authenticated, and [allowedRoles] is absent or
    holds the user's role.  Once loading is finished, no user gives a
    redirect to [/login], and a user whose role is not in the given
    [allowedRoles] gives a redirect to [/dashboard]. *)
Theorem ProtectedRoute_guard (allowedRoles : option (list UserRole))
    (s : State) :
  (ProtectedRoute allowedRoles (value s) = Children <->
     loading s = false /\
     exists u, user s = Some u /\ roleAllowed allowedRoles (role u)) /\
  (loading s = false -> user s = None ->
     ProtectedRoute allowedRoles (value s) = Navigate "/login") /\
  (forall u roles,
     loading s = false -> user s = Some u -> allowedRoles = Some roles ->
     role u ∉ roles ->
     ProtectedRoute allowedRoles (value s) = Navigate "/dashboard").
Proof.
  destruct s as [[u|] [|] st]; unfold ProtectedRoute, value; cbn.
  - (* loading *)
    split; [|split]; try discriminate.
    split; [discriminate | intros [H _]; discriminate H].
  - (* a user, loading finished *)
    destruct allowedRoles as [roles|]; cbn.
    + destruct (arrayIncludes roles (role u)) eqn:E; cbn.
      * apply arrayIncludes_spec in E.
        split; [|split]; try discriminate.
        -- split; [intros _; split; [reflexivity | exists u; auto] | reflexivity].
        -- intros u' roles' _ [= <-] [= <-] Hn. contradiction.
      * assert (Hn : role u ∉ roles).
        { intros Hin. apply arrayIncludes_spec in Hin. congruence. }
        split; [|split]; try discriminate.
        -- split; [discriminate|].
           intros (_ & u' & [= <-] & Hin). contradiction.
        -- intros u' roles' _ _ _ _. destruct (role u); reflexivity.
    + split; [|split]; try discriminate.
      split; [intros _; split; [reflexivity | exists u; split; [reflexivity | exact I]] | reflexivity].
  - (* no user, loading *)
    split; [|split]; try discriminate.
    split; [discriminate | intros [H _]; discriminate H].
  - (* no user, loading finished *)
    split; [|split]; try discriminate.
    + split; [discriminate | intros (_ & u & H & _); discriminate H].
    + reflexivity.
Qed.

End ProtectedRouteFacts.

Module RoleFacts.
Import AuthContext.

(** C3. For an authenticated user the dashboard rendered at [/dashboard]
    and the navigation menu of the sidebar depend on the user's role only:
    the teacher gets [TeacherDashboard] and 5 menu entries, the parent
    [ParentDashboard] and 4, the student [StudentDashboard] and 4; without
    a user [DashboardRouter] redirects to [/login]. *)
Theorem dashboard_and_menu_by_role :
  (forall (u : User) (pathname : string),
      App.DashboardRouter (Some u) "/dashboard" = Some (dashboardOf (role u)) /\
      (exists sb, AppSidebar.AppSidebar (Some u) = Some sb /\
         AppSidebar.label <$> AppSidebar.navigation sb =
           AppSidebar.title <$> AppSidebar.menuItems (role u) /\
         AppSidebar.to <$> AppSidebar.navigation sb =
           AppSidebar.url <$> AppSidebar.menuItems (role u) /\
         length (AppSidebar.navigation sb) = menuSize (role u)) /\
      (forall u' : User, role u' = role u ->
         App.DashboardRouter (Some u') pathname = App.DashboardRouter (Some u) pathname /\
         AppSidebar.navigation <$> AppSidebar.AppSidebar (Some u') =
           AppSidebar.navigation <$> AppSidebar.AppSidebar (Some u))) /\
  (forall pathname : string,
      App.DashboardRouter None pathname = Some (App.Navigate "/login")).
Proof.
  split; [|reflexivity].
  intros u pathname. split; [|split].
  - unfold App.DashboardRouter. destruct (role u); reflexivity.
  - eexists. split; [reflexivity|]. cbn.
    rewrite <- !list_fmap_compose, length_fmap.
    repeat split. destruct (role u); reflexivity.
  - intros u' Hr. unfold App.DashboardRouter, AppSidebar.AppSidebar. cbn.
    rewrite Hr. split; reflexivity.
Qed.

End RoleFacts.

(* ===================================================================== *)
(** * The saved session *)
(* ===================================================================== *)

Module StorageFacts.
Import AuthContext.

Lemma localStorage_login (email password : string) (r : UserRole) (s : State) :
  exists s' : State,
    settle (login email password r s) = Fulfilled s' /\
    localStorage s' =
      <["edubridge-user" := JSON_stringify (mockUsers r)]> (localStorage s).
Proof. eexists. split; [apply AuthFacts.settle_login | reflexivity]. Qed.

Lemma localStorage_logout (s : State) :
  localStorage (logout s) = delete "edubridge-user" (localStorage s).
Proof. reflexivity. Qed.

Lemma localStorage_useEffect (JSON_parse : string -> option (option User))
    (s : State) :
  localStorage (stateOf (useEffect JSON_parse s)) = localStorage s.
Proof.
  unfold useEffect. destruct (getItem _ s) as [saved|]; [|reflexivity].
  destruct (String.eqb saved ""); [reflexivity|].
  destruct (JSON_parse saved); reflexivity.
Qed.

(** C6, as the spec states it, fails: a login from a browser whose storage
    is empty leaves the user's JSON text under ['edubridge-user'] in
    [localStorage], outside the component state. *)
Lemma login_writes_localStorage :
  exists s' : State,
    settle (login "teacher@demo.com" "demo123" teacher
              {| user := None; loading := false; localStorage := ∅ |}) = Fulfilled s' /\
    (∅ : gmap string string) !! "edubridge-user" = None /\
    localStorage s' !! "edubridge-user" =
      Some (JSON_stringify (mockUsers teacher)).
Proof.
  eexists. split; [apply AuthFacts.settle_login|]. split.
  - apply lookup_empty.
  - apply lookup_insert_eq.
Qed.

(** C6, amended. The session is persisted in the browser's
    [localStorage]: [login] stores the JSON text of the mock user under
    ['edubridge-user'], [logout] removes that entry, and the mount effect
    of the provider reads it, taking the user from it, and leaves the
    storage as it is; none of the three changes what is stored under any
    other key. *)
Theorem session_entry_of_login_logout_and_mount (s : State) :
  (forall (email password : string) (r : UserRole),
      exists s' : State,
        settle (login email password r s) = Fulfilled s' /\
        localStorage s' !! "edubridge-user" = Some (JSON_stringify (mockUsers r)) /\
        forall k : string, k <> "edubridge-user" ->
                           localStorage s' !! k = localStorage s !! k) /\
  (localStorage (logout s) !! "edubridge-user" = None /\
   forall k : string, k <> "edubridge-user" ->
                      localStorage (logout s) !! k = localStorage s !! k) /\
  (forall JSON_parse : string -> option (option User),
      localStorage (stateOf (useEffect JSON_parse s)) = localStorage s /\
      forall (saved : string) (u : option User),
        localStorage s !! "edubridge-user" = Some saved -> saved <> "" ->
        JSON_parse saved = Some u ->
        user (stateOf (useEffect JSON_parse s)) = u).
Proof.
  split; [|split].
  - intros email password r.
    destruct (localStorage_login email password r s) as (s' & Hs' & Hst).
    exists s'. split; [exact Hs'|]. rewrite Hst. split.
    + apply lookup_insert_eq.
    + intros k Hk. now apply lookup_insert_ne.
  - rewrite localStorage_logout. split.
    + apply lookup_delete_eq.
    + intros k Hk. now apply lookup_delete_ne.
  - intros JSON_parse. split; [apply localStorage_useEffect|].
    intros saved u Hs Hne Hp. unfold useEffect, getItem. rewrite Hs.
    apply String.eqb_neq in Hne. rewrite Hne, Hp. reflexivity.
Qed.

(** C10. From every state [logout] gives the logged-out state: no user,
    [isAuthenticated] false, no ['edubridge-user'] entry; it touches
    nothing else.  Hence a [login], with any arguments, followed by
    [logout] brings a logged-out state back to itself. *)
Theorem logout_resets (s : State) :
  (loggedOut (logout s) /\
   loading (logout s) = loading s /\
   forall k : string, k <> "edubridge-user" ->
                      localStorage (logout s) !! k = localStorage s !! k) /\
  (forall (email password : string) (r : UserRole),
      loggedOut s ->
      exists s' : State,
        settle (login email password r s) = Fulfilled s' /\
        user (logout s') = user s /\
        isAuthenticated (value (logout s')) = isAuthenticated (value s) /\
        localStorage (logout s') = localStorage s /\
        (loading s = false -> logout s' = s)).
Proof.
  split.
  - split; [|split].
    + repeat split. apply lookup_delete_eq.
    + reflexivity.
    + intros k Hk. rewrite localStorage_logout. now apply lookup_delete_ne.
  - intros email password r (Hu & Ha & Hst).
    eexists. split; [apply AuthFacts.settle_login|].
    assert (Hback : delete "edubridge-user"
                      (<["edubridge-user" := JSON_stringify (mockUsers r)]>
                         (localStorage s)) = localStorage s)
      by now apply delete_insert_id.
    unfold logout, removeItem, setUser, value; cbn.
    rewrite Hback, Hu. repeat split.
    intros Hl. destruct s as [u l st]; cbn in *. now subst.
Qed.

Lemma logout_resets_witness :
  loggedOut (initial ∅) /\
  exists s' : State,
    settle (login "teacher@demo.com" "demo123" teacher (setLoading false (initial ∅)))
      = Fulfilled s' /\
    logout s' = setLoading false (initial ∅).
Proof.
  split.
  - repeat split.
  - destruct (proj2 (logout_resets (setLoading false (initial ∅)))
                "teacher@demo.com" "demo123" teacher) as (s' & H1 & _ & _ & _ & H2).
    + repeat split.
    + exists s'. split; [exact H1 | apply H2; reflexivity].
Defined.

End StorageFacts.

(* ===================================================================== *)
(** * The simulated requests *)
(* ===================================================================== *)

Module AsyncFacts.
Import AuthContext AIFeedback.

(** C4, as the spec states it, fails: a call at 2023-11-14T22:13:20Z and a
    call one minute later resolve with lists that differ (in the
    [generatedAt] of their items). *)
Lemma fetchFeedback_follows_the_clock :
  exists l0 l1 : list FeedbackItem,
    settle (fetchFeedback (fun _ => 1700000000000)) = Fulfilled l0 /\
    settle (fetchFeedback (fun _ => 1700000060000)) = Fulfilled l1 /\
    generatedAt <$> l0 =
      [ "2023-11-14T21:13:20.000Z"; "2023-11-14T17:13:20.000Z";
        "2023-11-13T22:13:20.000Z" ] /\
    generatedAt <$> l1 =
      [ "2023-11-14T21:14:20.000Z"; "2023-11-14T17:14:20.000Z";
        "2023-11-13T22:14:20.000Z" ] /\
    l0 <> l1.
Proof.
  eexists. eexists. split; [reflexivity|]. split; [reflexivity|].
  split; [vm_compute; reflexivity|]. split; [vm_compute; reflexivity|].
  intros H. apply (f_equal (fmap generatedAt)) in H.
  vm_compute in H. discriminate H.
Qed.

(** C4, amended. [fetchFeedback] takes no argument and every call resolves
    with exactly three entries, ['fb-1'], ['fb-2'], ['fb-3'] for Aadhya
    Sharma, Arjun Patel and Diya Singh with the scores 92, 78, 85; two
    calls agree on every field but [generatedAt], which is the ISO text of
    the time 1, 5 and 24 hours before the clock reading of the call; two
    calls that read the same clock values return equal lists. *)
Theorem fetchFeedback_canned (Date_now Date_now' : nat -> Z) :
  exists l l' : list FeedbackItem,
    settle (fetchFeedback Date_now) = Fulfilled l /\
    settle (fetchFeedback Date_now') = Fulfilled l' /\
    length l = 3%nat /\
    id <$> l = ["fb-1"; "fb-2"; "fb-3"] /\
    studentName <$> l = ["Aadhya Sharma"; "Arjun Patel"; "Diya Singh"] /\
    aiScore <$> l = [92; 78; 85] /\
    generatedAt <$> l =
      [ toISOString (Date_now 0%nat - 3600000);
        toISOString (Date_now 1%nat - 18000000);
        toISOString (Date_now 2%nat - 86400000) ] /\
    withGeneratedAt "" <$> l = withGeneratedAt "" <$> l' /\
    ((forall k : nat, Date_now k = Date_now' k) -> l = l').
Proof.
  eexists. eexists. split; [reflexivity|]. split; [reflexivity|].
  repeat split.
  intros H. now rewrite !H.
Qed.

Lemma settle_regenerateFeedback (Math_random : Q) (now : Z) (item_id : string) :
  settle (regenerateFeedback Math_random now item_id) =
  Fulfilled {| result_id := item_id;
               newScore := Math_floor (fadd 75 (fmul Math_random 20))%Q;
               timestamp := toISOString now |}.
Proof. reflexivity. Qed.





End AsyncFacts.

(* ===================================================================== *)
(** * The feedback cache and its summary *)
(* ===================================================================== *)

Module FeedbackFacts.
Import AIFeedback.

Section Updater.

Variable result : Regenerated.

Lemma updater_fmap (old : list FeedbackItem) :
  updater result (Some old) = Some (regen result <$> old).
Proof. reflexivity. Qed.

Lemma regen_other (item : FeedbackItem) :
  id item <> result_id result -> regen result item = item.
Proof.
  intros Hne. unfold regen.
  destruct (String.eqb_spec (id item) (result_id result)); [contradiction | reflexivity].
Qed.

Lemma regen_same (item : FeedbackItem) :
  id item = result_id result ->
  aiScore (regen result item) = newScore result /\
  generatedAt (regen result item) = timestamp result /\
  status (regen result item) = draft.
Proof.
  intros He. unfold regen. rewrite He, String.eqb_refl. repeat split.
Qed.

Lemma regen_frame (item : FeedbackItem) :
  id (regen result item) = id item /\
  studentName (regen result item) = studentName item /\
  subject (regen result item) = subject item /\
  submissionTitle (regen result item) = submissionTitle item /\
  strengths (regen result item) = strengths item /\
  improvements (regen result item) = improvements item /\
  tags (regen result item) = tags item.
Proof.
  unfold regen. destruct (String.eqb (id item) (result_id result)); repeat split.
Qed.

Lemma regen_absent (old : list FeedbackItem) :
  (forall item, item ∈ old -> id item <> result_id result) ->
  regen result <$> old = old.
Proof.
  induction old as [|x old IH]; intros Hall; [reflexivity|].
  rewrite fmap_cons, regen_other, IH; [reflexivity | |].
  - intros item Hin. apply Hall. now right.
  - apply Hall. now left.
Qed.

End Updater.

(** C8. A regeneration for an item id always succeeds, and its [onSuccess]
    rewrites the cached list in place: the list keeps its length and
    order; an item with another id is unchanged; an item with that id
    keeps every field but [aiScore], [generatedAt] and [status], which
    take the new score, the new timestamp and ['draft']; a list without
    that id, and an absent list, stay as they are. *)
Theorem regenerate_changes_one_item (Math_random : Q) (now : Z)
    (item_id : string) (pg : Page) :
  exists (res : Regenerated) (pg' : Page),
    settle (regenMutation Math_random now item_id pg) = Fulfilled pg' /\
    result_id res = item_id /\
    (data pg = None -> data pg' = None) /\
    (forall old : list FeedbackItem,
        data pg = Some old ->
        exists new : list FeedbackItem,
          data pg' = Some new /\
          length new = length old /\
          (forall (i : nat) (item : FeedbackItem),
              old !! i = Some item ->
              exists item' : FeedbackItem,
                new !! i = Some item' /\
                id item' = id item /\
                studentName item' = studentName item /\
                subject item' = subject item /\
                submissionTitle item' = submissionTitle item /\
                strengths item' = strengths item /\
                improvements item' = improvements item /\
                tags item' = tags item /\
                (id item <> item_id -> item' = item) /\
                (id item = item_id ->
                   aiScore item' = newScore res /\
                   generatedAt item' = timestamp res /\
                   status item' = draft)) /\
          ((forall item, item ∈ old -> id item <> item_id) -> new = old)).
Proof.
  unfold regenMutation.
  rewrite settle_tryCatch, AsyncFacts.settle_regenerateFeedback.
  cbn [settle].
  set (res := {| result_id := item_id;
                 newScore := Math_floor (fadd 75 (fmul Math_random 20))%Q;
                 timestamp := toISOString now |}).
  exists res, (onSuccess res pg). split; [reflexivity|].
  split; [reflexivity|]. split.
  - cbn. now intros ->.
  - intros old Hold. cbn [data onSuccess]. rewrite Hold, updater_fmap.
    eexists. split; [reflexivity|]. split; [apply length_fmap|]. split.
    + intros i item Hi. exists (regen res item).
      rewrite list_lookup_fmap, Hi. split; [reflexivity|].
      destruct (regen_frame res item) as (?&?&?&?&?&?&?).
      repeat (split; [assumption|]). split.
      * apply (regen_other res).
      * apply (regen_same res).
    + apply (regen_absent res).
Qed.

Lemma fold_left_scoreSum (l : list FeedbackItem) (a : Z) :
  fold_left (fun a b => a + aiScore b) l a = a + scoreSum l.
Proof.
  revert a. induction l as [|x l IH]; intros a; cbn.
  - lia.
  - rewrite IH. unfold scoreSum. lia.
Qed.

Lemma Math_round_div_nearest (n d : Z) :
  0 < d ->
  2 * n - d < 2 * d * Math_round_div n d <= 2 * n + d.
Proof.
  intros Hd. unfold Math_round_div.
  pose proof (Z.div_mod (2 * n + d) (2 * d) ltac:(lia)) as Hdm.
  pose proof (Z.mod_pos_bound (2 * n + d) (2 * d) ltac:(lia)) as Hb.
  lia.
Qed.

Lemma drafts_and_finals (l : list FeedbackItem) :
  (length (filter (fun i => status i = draft) l) +
   length (filter (fun i => status i = final) l) = length l)%nat.
Proof.
  induction l as [|x l IH]; [reflexivity|].
  rewrite !filter_cons. destruct (status x) eqn:E.
  - rewrite decide_True, decide_False by congruence. cbn. lia.
  - rewrite decide_False, decide_True by congruence. cbn. lia.
Qed.

Lemma summary_nonempty (l : list FeedbackItem) :
  l <> [] ->
  summary (Some l) =
  {| avgScore := Math_round_div (scoreSum l) (Z.of_nat (length l));
     total := Z.of_nat (length l);
     drafts := Z.of_nat (length (filter (fun i => status i = draft) l));
     finals := Z.of_nat (length l) -
               Z.of_nat (length (filter (fun i => status i = draft) l)) |}.
Proof.
  intros Hne. destruct l as [|x l]; [contradiction|].
  unfold summary. now rewrite fold_left_scoreSum, Z.add_0_l.
Qed.

(** C9. For every feedback list [l] the summary has
    [drafts + finals = total = length l], with [drafts] and [finals] the
    numbers of draft and of final items; for a nonempty list [avgScore] is
    the integer nearest to the mean [scoreSum l / length l] of the scores
    (at most one half away, a tie going up); for an empty or absent list
    all four fields are 0. *)
Theorem summary_spec :
  (forall l : list FeedbackItem,
      let sm := summary (Some l) in
      total sm = Z.of_nat (length l) /\
      drafts sm + finals sm = total sm /\
      drafts sm = Z.of_nat (length (filter (fun i => status i = draft) l)) /\
      finals sm = Z.of_nat (length (filter (fun i => status i = final) l)) /\
      (l <> [] ->
       2 * scoreSum l - total sm < 2 * total sm * avgScore sm <= 2 * scoreSum l + total sm)) /\
  summary (Some []) = {| avgScore := 0; total := 0; drafts := 0; finals := 0 |} /\
  summary None = {| avgScore := 0; total := 0; drafts := 0; finals := 0 |}.
Proof.
  split; [|split; reflexivity].
  intros [|x l]; cbv zeta.
  - cbn. split; [reflexivity|]. split; [reflexivity|].
    split; [reflexivity|]. split; [reflexivity|].
    intros H. contradiction.
  - rewrite summary_nonempty by discriminate.
    pose proof (drafts_and_finals (x :: l)) as Hc.
    remember (x :: l) as l' eqn:El'. cbn [total drafts finals avgScore].
    split; [reflexivity|]. split; [lia|]. split; [reflexivity|]. split; [lia|].
    intros _. apply Math_round_div_nearest. subst l'. cbn [length]. lia.
Qed.

End FeedbackFacts.

(* ===================================================================== *)
(** * The program on concrete inputs *)
(* ===================================================================== *)

Module Examples.
Import AuthContext.

Example epoch_text : toISOString 0 = "1970-01-01T00:00:00.000Z".
Proof. vm_compute. reflexivity. Qed.

Example leap_day_text : toISOString 951782400000 = "2000-02-29T00:00:00.000Z".
Proof. vm_compute. reflexivity. Qed.

Example round_half_up : Math_round_div 5 2 = 3 /\ Math_round_div (-5) 2 = -2.
Proof. split; reflexivity. Qed.

Example search_is_case_blind :
  StudentPapers.id <$> StudentPapers.filteredPapers "SHA" "all" = [1].
Proof. vm_compute. reflexivity. Qed.

Example search_by_subject_and_status :
  StudentPapers.id <$> StudentPapers.filteredPapers "e" "pending" = [2] /\
  StudentPapers.id <$> StudentPapers.filteredPapers "report" "reviewed" = [].
Proof. split; vm_compute; reflexivity. Qed.

Example guard_while_loading :
  ProtectedRoute.ProtectedRoute None (value (initial ∅)) = ProtectedRoute.LoadingSpinner.
Proof. reflexivity. Qed.

Example guard_excludes_role :
  ProtectedRoute.ProtectedRoute (Some [teacher])
    (value {| user := Some (mockUsers parent); loading := false; localStorage := ∅ |})
  = ProtectedRoute.Navigate "/dashboard".
Proof. reflexivity. Qed.

Example teacher_papers_route :
  App.DashboardRouter (Some (mockUsers teacher)) "/papers" = Some App.StudentPapers /\
  App.DashboardRouter (Some (mockUsers parent)) "/papers" = Some (App.Navigate "/dashboard").
Proof. split; vm_compute; reflexivity. Qed.

Example saved_parent :
  JSON_stringify (mockUsers parent) =
  JS.object
    [ ("id", Some (JS.quote "parent-1"));
      ("name", Some (JS.quote "Mr. Raj Sharma"));
      ("role", Some (JS.quote "parent"));
      ("email", Some (JS.quote "raj.sharma@gmail.com"));
      ("avatar", Some (JS.quote "/api/placeholder/40/40"));
      ("children", Some (JS.array [JS.quote "student-1"])) ].
Proof. vm_compute. reflexivity. Qed.

Example reload_restores_the_session :
  let parse := fun text : string =>
                 if String.eqb text (JSON_stringify (mockUsers student))
                 then Some (Some (mockUsers student)) else None in
  exists s', settle (login "student@demo.com" "demo123" student (initial ∅)) = Fulfilled s' /\
             user (stateOf (useEffect parse (initial (localStorage s'))))
             = Some (mockUsers student).
Proof. eexists. split; [apply AuthFacts.settle_login | vm_compute; reflexivity]. Qed.

Example summary_of_the_mock_list :
  exists l, settle (AIFeedback.fetchFeedback (fun _ => 1700000000000)) = Fulfilled l /\
            AIFeedback.summary (Some l) =
            {| AIFeedback.avgScore := 85; AIFeedback.total := 3;
               AIFeedback.drafts := 1; AIFeedback.finals := 2 |}.
Proof. eexists. split; [reflexivity | vm_compute; reflexivity]. Qed.

End Examples.

(* ===================================================================== *)
(** * The session across logins and reloads *)
(* ===================================================================== *)

Module SessionFacts.
Import AuthContext.

Lemma JSON_stringify_mockUsers_nonempty (r : UserRole) :
  String.eqb (JSON_stringify (mockUsers r)) "" = false.
Proof. destruct r; vm_compute; reflexivity. Qed.

(** X1. The last login wins: a login as [r2] after a login as [r1] leaves
    the very state that the login as [r2] alone leaves, in memory and in
    [localStorage]. *)
Theorem login_last_wins (email1 password1 email2 password2 : string)
    (r1 r2 : UserRole) (s : State) :
  exists s1 s2 : State,
    settle (login email1 password1 r1 s) = Fulfilled s1 /\
    settle (login email2 password2 r2 s1) = Fulfilled s2 /\
    settle (login email2 password2 r2 s) = Fulfilled s2.
Proof.
  eexists. eexists. split; [apply AuthFacts.settle_login|].
  rewrite !AuthFacts.settle_login. cbn [localStorage].
  rewrite insert_insert_eq. split; reflexivity.
Qed.

(** X2. A session survives a reload: when [JSON.parse] reads the saved
    text of the mock user back, the mount effect of a fresh provider over
    the storage that a login left ends loading with that user signed in,
    and leaves the storage as it was. *)
Theorem session_survives_reload (JSON_parse : string -> option (option User))
    (email password : string) (r : UserRole) (s : State) :
  JSON_parse (JSON_stringify (mockUsers r)) = Some (Some (mockUsers r)) ->
  exists s' : State,
    settle (login email password r s) = Fulfilled s' /\
    useEffect JSON_parse (initial (localStorage s')) =
      Normal {| user := Some (mockUsers r); loading := false;
                localStorage := localStorage s' |}.
Proof.
  intros Hparse. eexists. split; [apply AuthFacts.settle_login|].
  unfold useEffect, getItem, initial. cbn [localStorage].
  rewrite lookup_insert_eq, JSON_stringify_mockUsers_nonempty, Hparse.
  reflexivity.
Qed.

Lemma session_survives_reload_witness :
  let parse := fun text : string =>
                 if String.eqb text (JSON_stringify (mockUsers student))
                 then Some (Some (mockUsers student)) else None in
  exists s' : State,
    settle (login "student@demo.com" "demo123" student (initial ∅)) = Fulfilled s' /\
    user (stateOf (useEffect parse (initial (localStorage s')))) =
      Some (mockUsers student).
Proof.
  intros parse.
  destruct (session_survives_reload parse "student@demo.com" "demo123" student
              (initial ∅)) as (s' & H1 & H2).
  - vm_compute. reflexivity.
  - exists s'. split; [exact H1|]. rewrite H2. reflexivity.
Defined.

(** X3. A logout survives a reload: whatever [JSON.parse] does, the mount
    effect of a fresh provider over the storage that a logout left ends
    loading with nobody signed in. *)
Theorem logout_survives_reload (JSON_parse : string -> option (option User))
    (s : State) :
  useEffect JSON_parse (initial (localStorage (logout s))) =
    Normal {| user := None; loading := false;
              localStorage := localStorage (logout s) |}.
Proof.
  unfold useEffect, getItem, initial. cbn [localStorage logout removeItem setUser].
  rewrite lookup_delete_eq. reflexivity.
Qed.

(** X4. The mount effect ends loading whenever it completes, and never
    writes to the storage; an absent entry and an empty entry are treated
    alike and leave the user as it is; the effect is left by an exception,
    with [loading] still as it was, exactly when the saved entry is a
    nonempty text that [JSON.parse] rejects. *)
Theorem mount_effect_completion (JSON_parse : string -> option (option User))
    (s : State) :
  (forall s' : State,
      useEffect JSON_parse s = Normal s' ->
      loading s' = false /\ localStorage s' = localStorage s) /\
  (localStorage s !! "edubridge-user" = None \/
   localStorage s !! "edubridge-user" = Some "" ->
   useEffect JSON_parse s = Normal (setLoading false s)) /\
  (useEffect JSON_parse s = Abrupt s <->
   exists saved : string,
     localStorage s !! "edubridge-user" = Some saved /\
     saved <> "" /\ JSON_parse saved = None) /\
  (forall s' : State, useEffect JSON_parse s = Abrupt s' -> s' = s).
Proof.
  unfold useEffect, getItem.
  destruct (localStorage s !! "edubridge-user") as [saved|] eqn:Hs.
  - destruct (String.eqb_spec saved "") as [->|Hne].
    + split; [|split; [|split]].
      * intros s' [= <-]. split; reflexivity.
      * intros _. reflexivity.
      * split; [discriminate|]. intros (sv & [= <-] & Hn & _). congruence.
      * discriminate.
    + destruct (JSON_parse saved) as [u|] eqn:Hp.
      * split; [|split; [|split]].
        -- intros s' [= <-]. split; reflexivity.
        -- intros [H|H]; [discriminate H | congruence].
        -- split; [discriminate|]. intros (sv & [= <-] & _ & Hn). congruence.
        -- discriminate.
      * split; [|split; [|split]].
        -- discriminate.
        -- intros [H|H]; [discriminate H | congruence].
        -- split; [|reflexivity]. intros _. exists saved. auto.
        -- intros s' [= <-]. reflexivity.
  - split; [|split; [|split]].
    + intros s' [= <-]. split; reflexivity.
    + intros _. reflexivity.
    + split; [discriminate|]. intros (sv & H & _). discriminate H.
    + discriminate.
Qed.

End SessionFacts.

(* ===================================================================== *)
(** * Navigation *)
(* ===================================================================== *)

Module NavigationFacts.
Import AuthContext.

Lemma matchPath_star (pathname : string) : App.matchPath "*" pathname = true.
Proof. reflexivity. Qed.

Lemma DashboardRouter_by_menu (u : User) (pathname : string) :
  exists page : App.Page,
    App.DashboardRouter (Some u) pathname = Some page /\
    if existsb (fun item => App.matchPath (AppSidebar.url item) pathname)
         (AppSidebar.menuItems (role u))
    then isPage page
    else page = App.Navigate "/dashboard".
Proof.
  unfold App.DashboardRouter.
  destruct (role u);
    cbn [App.Routes AppSidebar.menuItems existsb AppSidebar.url];
    rewrite (matchPath_star pathname);
    repeat match goal with
           | |- context [App.matchPath ?p pathname] =>
               destruct (App.matchPath p pathname)
           end;
    cbn [orb]; eexists; (split; [reflexivity|]); first [exact I | reflexivity].
Qed.

(** X5. The routes of a role are the links of its sidebar: for a signed-in
    user [DashboardRouter] renders a page proper at a location exactly when
    the location matches the url of an entry of the user's menu, and
    redirects to [/dashboard] at every other location. *)
Theorem routes_are_the_menu (u : User) (pathname : string) :
  ((exists page, App.DashboardRouter (Some u) pathname = Some page /\ isPage page) <->
   (exists item, item ∈ AppSidebar.menuItems (role u) /\
                 App.matchPath (AppSidebar.url item) pathname = true)) /\
  ((forall item, item ∈ AppSidebar.menuItems (role u) ->
                 App.matchPath (AppSidebar.url item) pathname = false) ->
   App.DashboardRouter (Some u) pathname = Some (App.Navigate "/dashboard")).
Proof.
  destruct (DashboardRouter_by_menu u pathname) as (page & Hr & Hp).
  destruct (existsb _ _) eqn:E.
  - apply existsb_exists in E as (item & Hin & Hm).
    apply list_elem_of_In in Hin. split.
    + split; intros _; eauto.
    + intros Hall. rewrite (Hall item Hin) in Hm. discriminate Hm.
  - assert (Hnone : forall item, item ∈ AppSidebar.menuItems (role u) ->
                                 App.matchPath (AppSidebar.url item) pathname = false).
    { intros item Hin. apply list_elem_of_In in Hin.
      destruct (App.matchPath (AppSidebar.url item) pathname) eqn:Hm; [|reflexivity].
      assert (Hex : existsb (fun item => App.matchPath (AppSidebar.url item) pathname)
                      (AppSidebar.menuItems (role u)) = true)
        by (apply existsb_exists; eauto).
      congruence. }
    subst page. split.
    + split.
      * intros (page & Hr' & Hpage). rewrite Hr in Hr'. injection Hr' as <-.
        contradiction.
      * intros (item & Hin & Hm). rewrite (Hnone item Hin) in Hm. discriminate Hm.
    + intros _. exact Hr.
Qed.

Lemma App_guest (st : gmap string string) (isLoggingIn : bool) (pathname : string) :
  Root.App {| user := None; loading := false; localStorage := st |}
    isLoggingIn pathname =
  if App.matchPath "/login" pathname
  then Root.LoginPage isLoggingIn (if isLoggingIn then "Signing in..." else "Sign In")
  else Root.Redirect "/login".
Proof.
  unfold Root.App. cbn -[App.matchPath]. now rewrite orb_false_r.
Qed.

Lemma App_member (u : User) (st : gmap string string) (isLoggingIn : bool)
    (pathname : string) :
  Root.App {| user := Some u; loading := false; localStorage := st |}
    isLoggingIn pathname =
  if App.matchPath "/login" pathname then Root.Redirect "/dashboard"
  else match App.DashboardRouter (Some u) pathname with
       | Some (App.Navigate to) => Root.Redirect to
       | content =>
           Root.Portal
             {| DashboardLayout.sidebar := AppSidebar.AppSidebar (Some u);
                DashboardLayout.portalTitle :=
                  DashboardLayout.capitalize (roleName (role u)) +:+ " Portal";
                DashboardLayout.welcomeBack :=
                  "Welcome back, " +:+ DashboardLayout.firstName (name u);
                DashboardLayout.content := content |}
       end.
Proof.
  unfold Root.App. cbn -[App.DashboardRouter App.matchPath AppSidebar.AppSidebar
                          DashboardLayout.capitalize DashboardLayout.firstName
                          String.append].
  destruct (App.matchPath "/login" pathname); [reflexivity|].
  destruct (App.DashboardRouter (Some u) pathname) as [[]|]; reflexivity.
Qed.

Lemma App_member_login (u : User) (st : gmap string string) (isLoggingIn : bool) :
  Root.App {| user := Some u; loading := false; localStorage := st |}
    isLoggingIn "/login" = Root.Redirect "/dashboard".
Proof. rewrite App_member. reflexivity. Qed.

Lemma DashboardRouter_dashboard (u : User) :
  App.DashboardRouter (Some u) "/dashboard" = Some (dashboardOf (role u)).
Proof. unfold App.DashboardRouter. destruct (role u); reflexivity. Qed.

Lemma App_member_dashboard (u : User) (st : gmap string string) (isLoggingIn : bool) :
  Root.App {| user := Some u; loading := false; localStorage := st |}
    isLoggingIn "/dashboard" =
  Root.Portal
    {| DashboardLayout.sidebar := AppSidebar.AppSidebar (Some u);
       DashboardLayout.portalTitle :=
         DashboardLayout.capitalize (roleName (role u)) +:+ " Portal";
       DashboardLayout.welcomeBack :=
         "Welcome back, " +:+ DashboardLayout.firstName (name u);
       DashboardLayout.content := Some (dashboardOf (role u)) |}.
Proof.
  rewrite App_member, DashboardRouter_dashboard.
  change (App.matchPath "/login" "/dashboard") with false. cbv iota.
  destruct (role u); reflexivity.
Qed.

Lemma isPage_dashboardOf (r : UserRole) : isPage (dashboardOf r).
Proof. destruct r; exact I. Qed.

(** X6. Once loading is finished, navigation settles after at most one
    redirect, at every location: a visitor who is not signed in ends on the
    login form at a location that matches [/login]; a signed-in user ends
    inside the dashboard layout with the user's own sidebar, on a page
    proper that [DashboardRouter] serves at the final location.  Nobody
    ends on a blank screen, a spinner or a further redirect. *)
Theorem navigation_settles (s : State) (isLoggingIn : bool) (pathname : string) :
  loading s = false ->
  match user s with
  | None =>
      exists (loc : string) (disabled : bool) (buttonLabel : string),
        Root.settleLocation 1 s isLoggingIn pathname
          = (loc, Root.LoginPage disabled buttonLabel) /\
        App.matchPath "/login" loc = true
  | Some u =>
      exists (loc : string) (layout : DashboardLayout.Layout (option App.Page))
             (page : App.Page),
        Root.settleLocation 1 s isLoggingIn pathname = (loc, Root.Portal layout) /\
        DashboardLayout.content layout = Some page /\
        isPage page /\
        App.DashboardRouter (Some u) loc = Some page /\
        DashboardLayout.sidebar layout = AppSidebar.AppSidebar (Some u)
  end.
Proof.
  destruct s as [[u|] l st]; cbn [loading user]; intros ->.
  - (* signed in *)
    assert (Hdash : exists layout,
               Root.App {| user := Some u; loading := false; localStorage := st |}
                 isLoggingIn "/dashboard" = Root.Portal layout /\
               DashboardLayout.content layout = Some (dashboardOf (role u)) /\
               DashboardLayout.sidebar layout = AppSidebar.AppSidebar (Some u)).
    { rewrite App_member, DashboardRouter_dashboard.
      change (App.matchPath "/login" "/dashboard") with false. cbv iota.
      destruct (role u); eexists; repeat split. }
    destruct Hdash as (dash & Hdash & Hcontent & Hsidebar).
    unfold Root.settleLocation. rewrite App_member.
    destruct (App.matchPath "/login" pathname).
    + rewrite Hdash. exists "/dashboard", dash, (dashboardOf (role u)).
      repeat split; auto using isPage_dashboardOf, DashboardRouter_dashboard.
    + destruct (DashboardRouter_by_menu u pathname) as (page & Hr & Hp).
      rewrite Hr. destruct (existsb _ _).
      * destruct page; try contradiction;
          (eexists pathname, _, _; split; [reflexivity|];
           split; [reflexivity|]; split; [exact I|]; split; [exact Hr | reflexivity]).
      * subst page. rewrite Hdash.
        exists "/dashboard", dash, (dashboardOf (role u)).
        repeat split; auto using isPage_dashboardOf, DashboardRouter_dashboard.
  - (* not signed in *)
    unfold Root.settleLocation. rewrite App_guest.
    destruct (App.matchPath "/login" pathname) eqn:E.
    + exists pathname. eexists. eexists. split; [reflexivity | exact E].
    + rewrite App_guest. change (App.matchPath "/login" "/login") with true.
      exists "/login". eexists. eexists. split; reflexivity.
Qed.

Lemma navigation_settles_witness :
  exists (loc : string) (layout : DashboardLayout.Layout (option App.Page))
         (page : App.Page),
    Root.settleLocation 1
      {| user := Some (mockUsers parent); loading := false; localStorage := ∅ |}
      false "/papers" = (loc, Root.Portal layout) /\
    DashboardLayout.content layout = Some page /\
    isPage page.
Proof.
  destruct (navigation_settles
              {| user := Some (mockUsers parent); loading := false; localStorage := ∅ |}
              false "/papers" eq_refl) as (loc & layout & page & H1 & H2 & H3 & _).
  exists loc, layout, page. auto.
Defined.

End NavigationFacts.

(* ===================================================================== *)
(** * The login form *)
(* ===================================================================== *)

Module LoginFacts.
Import AuthContext.

(** X7. [handleLogin] validates before it signs in.  With an empty email or
    an empty password it returns at once, without a timer: one 'Missing
    Information' toast, the provider state and the [isLoggingIn] flag
    untouched.  With both filled in it waits for the login, raises the
    welcome toast for the selected role, lowers [isLoggingIn], and leaves
    that role's mock user signed in, so that the page then redirects to
    [/dashboard]; the demo credentials of every role are of this kind. *)
Theorem handleLogin_validation (email password : string) (r : UserRole)
    (isLoggingIn0 : bool) (s : State) :
  (email = "" \/ password = "" ->
   Login.handleLogin email password r isLoggingIn0 s =
     Return {| Login.toasts := [Login.missingInformation];
               Login.auth := s;
               Login.isLoggingIn := isLoggingIn0 |}) /\
  (email <> "" -> password <> "" ->
   timers (Login.handleLogin email password r isLoggingIn0 s) = [1000] /\
   exists out : Login.Outcome,
     settle (Login.handleLogin email password r isLoggingIn0 s) = Fulfilled out /\
     Login.toasts out = [Login.welcome r] /\
     Login.isLoggingIn out = false /\
     user (Login.auth out) = Some (mockUsers r) /\
     Login.Login (value (Login.auth out)) (Login.isLoggingIn out)
       = Login.Navigate "/dashboard") /\
  (Login.demoCredentials r).1 <> "" /\ (Login.demoCredentials r).2 <> "".
Proof.
  unfold Login.handleLogin. split; [|split].
  - intros [-> | ->]; cbn [String.eqb orb]; [reflexivity|].
    now rewrite orb_true_r.
  - intros He Hp.
    apply String.eqb_neq in He, Hp. rewrite He, Hp. cbn [orb].
    split; [reflexivity|].
    rewrite settle_tryCatch, AuthFacts.settle_login. cbn [settle].
    eexists. split; [reflexivity|]. repeat split.
  - destruct r; split; discriminate.
Qed.

Lemma handleLogin_validation_witness :
  exists out : Login.Outcome,
    settle (Login.handleLogin "parent@demo.com" "demo123" parent false
              {| user := None; loading := false; localStorage := ∅ |})
      = Fulfilled out /\
    user (Login.auth out) = Some (mockUsers parent).
Proof.
  destruct (proj1 (proj2 (handleLogin_validation "parent@demo.com" "demo123" parent
                            false {| user := None; loading := false; localStorage := ∅ |})))
    as (_ & out & H1 & _ & _ & H2 & _).
  - discriminate.
  - discriminate.
  - exists out. auto.
Defined.

End LoginFacts.

(* ===================================================================== *)
(** * More about the paper search *)
(* ===================================================================== *)

Section SearchFacts.

Lemma append_cons (x : ascii) (a b : string) :
  String x a +:+ b = String x (a +:+ b).
Proof. reflexivity. Qed.

Lemma append_assoc (a b c : string) : (a +:+ b) +:+ c = a +:+ b +:+ c.
Proof.
  induction a as [|x a IH]; [reflexivity|]. now rewrite !append_cons, IH.
Qed.

Lemma toLowerCase_app (a b : string) :
  toLowerCase (a +:+ b) = toLowerCase a +:+ toLowerCase b.
Proof.
  induction a as [|x a IH]; [reflexivity|].
  rewrite append_cons. cbn [toLowerCase]. now rewrite append_cons, IH.
Qed.

Lemma lowerChar_idem (c : ascii) : lowerChar (lowerChar c) = lowerChar c.
Proof.
  destruct c as [[] [] [] [] [] [] [] []]; vm_compute; reflexivity.
Qed.

Lemma toLowerCase_idem (s : string) : toLowerCase (toLowerCase s) = toLowerCase s.
Proof.
  induction s as [|c s IH]; simpl; [reflexivity | now rewrite lowerChar_idem, IH].
Qed.

Lemma occursIn_trans (a b c : string) : occursIn a b -> occursIn b c -> occursIn a c.
Proof.
  intros (p & q & ->) (p' & q' & ->).
  exists (p' +:+ p), (q +:+ q'). now rewrite !append_assoc.
Qed.

Lemma occursIn_toLowerCase (a b : string) :
  occursIn a b -> occursIn (toLowerCase a) (toLowerCase b).
Proof.
  intros (p & q & ->). exists (toLowerCase p), (toLowerCase q).
  now rewrite !toLowerCase_app.
Qed.

Lemma occursIn_empty (s : string) : occursIn "" s.
Proof. exists "", s. reflexivity. Qed.

Lemma filter_sublist_impl {A} (p q : A -> bool) (l : list A) :
  (forall x, p x = true -> q x = true) ->
  List.filter p l `sublist_of` List.filter q l.
Proof.
  intros Himp. induction l as [|x l IH]; cbn; [constructor|].
  destruct (p x) eqn:Ep.
  - rewrite (Himp x Ep). now constructor.
  - destruct (q x); [now constructor | exact IH].
Qed.

End SearchFacts.

Module PaperSearchFacts.
Import StudentPapers.

(** X8. The text under 'No papers found' is shown exactly when no paper
    passes the filters, and it is then always the advice to adjust the
    search: the invitation to upload a first batch is never shown, because
    the empty search with the filter ['all'] lists every paper. *)
Theorem noPapersFound_spec (searchTerm statusFilter : string) :
  (noPapersFound searchTerm statusFilter = Some tryAdjusting <->
   filteredPapers searchTerm statusFilter = []) /\
  (noPapersFound searchTerm statusFilter = None <->
   filteredPapers searchTerm statusFilter <> []) /\
  (noPapersFound searchTerm statusFilter = Some uploadFirst -> False).
Proof.
  assert (Hne : tryAdjusting <> uploadFirst) by discriminate.
  unfold noPapersFound.
  destruct (filteredPapers searchTerm statusFilter) as [|x l] eqn:Hf; cbn [length Nat.eqb].
  - destruct (String.eqb_spec searchTerm "") as [->|Hs];
      [destruct (String.eqb_spec statusFilter "all") as [->|Hst]|]; cbn [negb orb].
    + discriminate Hf.
    + split; [|split]; [tauto | split; [discriminate | congruence] | congruence].
    + split; [|split]; [tauto | split; [discriminate | congruence] | congruence].
  - split; [|split]; [split; discriminate | split; [discriminate | reflexivity] | discriminate].
Qed.

(** X9. Refining the search never adds a paper: when the term [t] occurs
    in the longer term [t'], the papers found for [t'] are among the papers
    found for [t], in the same order; and a status filter only removes
    papers from what the filter ['all'] shows. *)
Theorem search_narrows (t t' statusFilter : string) :
  occursIn t t' ->
  filteredPapers t' statusFilter `sublist_of` filteredPapers t statusFilter /\
  filteredPapers t statusFilter `sublist_of` filteredPapers t "all".
Proof.
  intros Hocc. apply occursIn_toLowerCase in Hocc. split.
  - apply filter_sublist_impl. intros paper.
    rewrite !StudentPapersFacts.matches_spec.
    intros [[H|H] Hst]; (split; [|exact Hst]); [left|right];
      eapply occursIn_trans; eauto.
  - apply filter_sublist_impl. intros paper.
    rewrite !StudentPapersFacts.matches_spec.
    intros [H _]. split; [exact H | now left].
Qed.

Lemma search_narrows_witness :
  occursIn "sha" "sharma" /\
  filteredPapers "sharma" "all" `sublist_of` filteredPapers "sha" "all".
Proof.
  assert (H : occursIn "sha" "sharma") by (exists "", "rma"; reflexivity).
  split; [exact H | exact (proj1 (search_narrows "sha" "sharma" "all" H))].
Defined.

End PaperSearchFacts.

(* ===================================================================== *)
(** * The feedback list: filters, selection, regeneration *)
(* ===================================================================== *)

Module FeedbackListFacts.
Import AIFeedback.

Lemma matchesItem_spec (search subjectFilter : string) (statusFilter : StatusFilter)
    (item : FeedbackItem) :
  matchesItem search subjectFilter statusFilter item = true <->
  (occursIn (toLowerCase search) (toLowerCase (studentName item)) \/
   occursIn (toLowerCase search) (toLowerCase (submissionTitle item)) \/
   occursIn (toLowerCase search) (toLowerCase (subject item))) /\
  (subjectFilter = "all" \/ toLowerCase (subject item) = subjectFilter) /\
  (statusFilter = all \/ statusFilter = only (status item)).
Proof.
  unfold matchesItem, some. cbn [existsb].
  rewrite !andb_true_iff, !orb_true_iff, !includes_spec, !String.eqb_eq,
    !bool_decide_eq_true.
  intuition (congruence || auto).
Qed.

Lemma filter_all {A} (p : A -> bool) (l : list A) :
  (forall x, x ∈ l -> p x = true) -> List.filter p l = l.
Proof.
  induction l as [|x l IH]; intros Hall; cbn; [reflexivity|].
  rewrite (Hall x) by now left. f_equal. apply IH. intros y Hy. apply Hall. now right.
Qed.

Lemma filter_none {A} (p : A -> bool) (l : list A) :
  (forall x, x ∈ l -> p x = false) -> List.filter p l = [].
Proof.
  induction l as [|x l IH]; intros Hall; cbn; [reflexivity|].
  rewrite (Hall x) by now left. apply IH. intros y Hy. apply Hall. now right.
Qed.

(** X10. The filtered feedback list holds exactly the cached items whose
    student name, submission title or subject contains the search text
    (letter case aside), whose lowercased subject is the subject filter
    unless that is ['all'], and whose status is the status filter unless
    that is ['all']; it keeps the order of the cache.  With the empty
    search and both filters on ['all'] it is the whole cache; without a
    cache it is empty; and a subject filter other than ['all'] that has an
    upper-case letter hides every item. *)
Theorem filtered_spec (l : list FeedbackItem) (search subjectFilter : string)
    (statusFilter : StatusFilter) :
  (forall item : FeedbackItem,
      item ∈ filtered (Some l) search subjectFilter statusFilter <->
      item ∈ l /\
      (occursIn (toLowerCase search) (toLowerCase (studentName item)) \/
       occursIn (toLowerCase search) (toLowerCase (submissionTitle item)) \/
       occursIn (toLowerCase search) (toLowerCase (subject item))) /\
      (subjectFilter = "all" \/ toLowerCase (subject item) = subjectFilter) /\
      (statusFilter = all \/ statusFilter = only (status item))) /\
  filtered (Some l) search subjectFilter statusFilter `sublist_of` l /\
  filtered (Some l) "" "all" all = l /\
  filtered None search subjectFilter statusFilter = [] /\
  (subjectFilter <> "all" -> toLowerCase subjectFilter <> subjectFilter ->
   filtered (Some l) search subjectFilter statusFilter = []).
Proof.
  unfold filtered. split; [|split; [|split; [|split]]].
  - intros item. rewrite !list_elem_of_In, filter_In, matchesItem_spec. reflexivity.
  - apply filter_sublist.
  - apply filter_all. intros item _. apply matchesItem_spec.
    split; [left; apply occursIn_empty | split; now left].
  - reflexivity.
  - intros Hall Hcase. apply filter_none. intros item _.
    destruct (matchesItem _ _ _ item) eqn:E; [|reflexivity].
    apply matchesItem_spec in E as (_ & [Hs|Hs] & _); [contradiction|].
    exfalso. apply Hcase. rewrite <- Hs. apply toLowerCase_idem.
Qed.

(** X11. The detail panel shows an item of the visible list whenever that
    list is not empty, and nothing otherwise: the visible item with the
    selected id when there is one, else the first visible item (also when
    nothing was selected, or the selected item is filtered out). *)
Theorem selected_spec (visible : list FeedbackItem) (selectedId : option string) :
  (selected visible selectedId = None <-> visible = []) /\
  (forall f, selected visible selectedId = Some f -> f ∈ visible) /\
  (forall i, selectedId = Some i -> (exists f, f ∈ visible /\ id f = i) ->
             exists f, selected visible selectedId = Some f /\ id f = i) /\
  ((forall f, f ∈ visible -> Some (id f) <> selectedId) ->
   selected visible selectedId = head visible).
Proof.
  unfold selected.
  set (p := fun f => match selectedId with
                     | Some i => String.eqb (id f) i
                     | None => false
                     end).
  destruct (List.find p visible) as [f|] eqn:Hfind.
  - apply find_some in Hfind as [Hin Hp]. apply list_elem_of_In in Hin.
    assert (Hid : Some (id f) = selectedId).
    { subst p. cbn in Hp. destruct selectedId as [i|]; [|discriminate].
      apply String.eqb_eq in Hp. now subst. }
    split; [|split; [|split]].
    + split; [discriminate|]. intros ->. now apply elem_of_nil in Hin.
    + intros f' [= <-]. exact Hin.
    + intros i -> _. exists f. split; [reflexivity | now injection Hid].
    + intros Hno. exfalso. exact (Hno f Hin Hid).
  - pose proof (find_none _ _ Hfind) as Hnone.
    split; [|split; [|split]].
    + destruct visible; split; try discriminate; reflexivity.
    + destruct visible as [|x v]; intros f' [= <-]. now left.
    + intros i -> (f & Hin & Hid). apply list_elem_of_In in Hin.
      specialize (Hnone f Hin). subst p. cbn in Hnone.
      rewrite Hid, String.eqb_refl in Hnone. discriminate.
    + intros _. destruct visible; reflexivity.
Qed.

End FeedbackListFacts.

Section DoubleFacts.

Lemma floorLog2_le (n d : Z) :
  0 < n -> 0 < d -> n < 2 ^ 53 * d -> floorLog2 n d <= 52.
Proof.
  intros Hn Hd Hlt. unfold floorLog2.
  assert (Hk : Z.log2 n - Z.log2 d <= 53).
  { assert (H : Z.log2 n <= Z.log2 (d * 2 ^ 53)) by (apply Z.log2_le_mono; lia).
    rewrite Z.log2_mul_pow2 in H by lia. lia. }
  set (k := Z.log2 n - Z.log2 d) in *.
  destruct (0 <=? k) eqn:E0.
  - destruct (d * 2 ^ k <=? n) eqn:E1; [|lia].
    apply Z.leb_le in E0, E1.
    assert (H : 2 ^ k < 2 ^ 53) by nia.
    apply Z.pow_lt_mono_r_iff in H; lia.
  - apply Z.leb_gt in E0. destruct (d <=? n * 2 ^ (- k)); lia.
Qed.

Lemma roundHalfEven_between (A B : Z) (q : Q) :
  (inject_Z A <= q)%Q -> (q <= inject_Z B)%Q -> A <= roundHalfEven q <= B.
Proof.
  intros HA HB. unfold roundHalfEven.
  pose proof (Qfloor_le q) as Hf. pose proof (Qlt_floor q) as Hc.
  assert (HfA : A <= Qfloor q).
  { apply Qfloor_resp_le in HA. now rewrite Qfloor_Z in HA. }
  assert (HfB : Qfloor q <= B).
  { apply Qfloor_resp_le in HB. now rewrite Qfloor_Z in HB. }
  cbv zeta.
  destruct (Qcompare (q - inject_Z (Qfloor q)) (1 # 2)) eqn:E.
  - apply Qeq_alt in E. destruct (Z.even (Qfloor q)); [lia|].
    destruct (Z.eq_dec (Qfloor q) B) as [He|Hne]; [|lia].
    rewrite He in E. lra.
  - lia.
  - apply Qgt_alt in E.
    destruct (Z.eq_dec (Qfloor q) B) as [He|Hne]; [|lia].
    rewrite He in E. lra.
Qed.

Lemma doublePos_between (a b : Z) (q : Q) :
  (0 < q)%Q -> (inject_Z a <= q)%Q -> (q <= inject_Z b)%Q -> b < 2 ^ 53 ->
  (inject_Z a <= doublePos q)%Q /\ (doublePos q <= inject_Z b)%Q.
Proof.
  intros Hq Ha Hb Hb53. unfold doublePos.
  assert (Hn : 0 < Qnum q).
  { unfold Qlt in Hq. cbn in Hq. lia. }
  assert (Hnd : Qnum q < 2 ^ 53 * Zpos (Qden q)).
  { unfold Qle in Hb. cbn in Hb. nia. }
  pose proof (floorLog2_le (Qnum q) (Zpos (Qden q)) Hn eq_refl Hnd) as Hlog.
  set (p := 52 - floorLog2 (Qnum q) (Zpos (Qden q))).
  assert (Hp : 0 <= p) by (subst p; lia).
  apply Z.leb_le in Hp as Hp'. rewrite Hp'.
  assert (Hs : 0 < 2 ^ p) by (apply Z.pow_pos_nonneg; lia).
  assert (HsQ : (0 < inject_Z (2 ^ p))%Q).
  { change 0%Q with (inject_Z 0). now rewrite <- Zlt_Qlt. }
  destruct (roundHalfEven_between (a * 2 ^ p) (b * 2 ^ p) (q * inject_Z (2 ^ p)))
    as [Hlo Hhi].
  - rewrite inject_Z_mult. apply Qmult_le_compat_r; [exact Ha | now apply Qlt_le_weak].
  - rewrite inject_Z_mult. apply Qmult_le_compat_r; [exact Hb | now apply Qlt_le_weak].
  - split.
    + apply Qle_shift_div_l; [exact HsQ|].
      rewrite <- inject_Z_mult. now rewrite <- Zle_Qle.
    + apply Qle_shift_div_r; [exact HsQ|].
      rewrite <- inject_Z_mult. now rewrite <- Zle_Qle.
Qed.

Lemma double_between (a b : Z) (q : Q) :
  0 <= a -> (inject_Z a <= q)%Q -> (q <= inject_Z b)%Q -> b < 2 ^ 53 ->
  (inject_Z a <= double q)%Q /\ (double q <= inject_Z b)%Q.
Proof.
  intros Ha0 Ha Hb Hb53. unfold double.
  assert (Ha0Q : (0 <= inject_Z a)%Q).
  { change 0%Q with (inject_Z 0). now rewrite <- Zle_Qle. }
  destruct (Qcompare q 0) eqn:E.
  - apply Qeq_alt in E. split; lra.
  - apply Qlt_alt in E. lra.
  - apply Qgt_alt in E. now apply doublePos_between.
Qed.

End DoubleFacts.

Module RegenerationFacts.
Import AIFeedback.

Lemma regen_idem (res : Regenerated) (item : FeedbackItem) :
  regen res (regen res item) = regen res item.
Proof.
  unfold regen at 2. destruct (String.eqb (id item) (result_id res)) eqn:E;
    unfold regen; cbn [id]; rewrite E; reflexivity.
Qed.

Lemma matchesItem_regen (res : Regenerated) (search subjectFilter : string)
    (item : FeedbackItem) :
  matchesItem search subjectFilter all (regen res item) =
  matchesItem search subjectFilter all item.
Proof.
  destruct (FeedbackFacts.regen_frame res item) as (_ & Hn & Hs & Ht & _).
  unfold matchesItem. now rewrite Hn, Hs, Ht.
Qed.

Lemma filter_fmap_ids (res : Regenerated) (p : FeedbackItem -> bool)
    (l : list FeedbackItem) :
  (forall item, p (regen res item) = p item) ->
  id <$> List.filter p (regen res <$> l) = id <$> List.filter p l.
Proof.
  intros Hp. induction l as [|x l IH]; [reflexivity|].
  rewrite fmap_cons. cbn [List.filter]. rewrite Hp.
  destruct (p x); [|exact IH].
  rewrite !fmap_cons, IH. f_equal.
  apply (proj1 (FeedbackFacts.regen_frame res x)).
Qed.

(** X12. Applying the result of a regeneration to the cache a second time
    changes nothing more.  Under the status filter ['all'] the
    regeneration changes neither which items are listed nor their order,
    whatever the search and the subject filter; under the status filter
    ['final'] no item with the regenerated id is listed afterwards. *)
Theorem regeneration_and_the_list (res : Regenerated)
    (data : option (list FeedbackItem)) (search subjectFilter : string) :
  updater res (updater res data) = updater res data /\
  id <$> filtered (updater res data) search subjectFilter all =
    id <$> filtered data search subjectFilter all /\
  (forall item : FeedbackItem,
      item ∈ filtered (updater res data) search subjectFilter (only final) ->
      id item <> result_id res).
Proof.
  destruct data as [l|]; cbn [updater filtered].
  - split; [|split].
    + f_equal. rewrite <- list_fmap_compose. apply list_fmap_ext.
      intros i x _. apply regen_idem.
    + apply filter_fmap_ids. intros item. apply matchesItem_regen.
    + intros item Hin.
      apply list_elem_of_In, filter_In in Hin as [Hin Hm].
      apply list_elem_of_In, list_elem_of_fmap in Hin as (x & -> & _).
      apply FeedbackListFacts.matchesItem_spec in Hm as (_ & _ & [Hst|Hst]);
        [discriminate|].
      injection Hst as Hst.
      rewrite (proj1 (FeedbackFacts.regen_frame res x)). intros Hid.
      destruct (FeedbackFacts.regen_same res x Hid) as (_ & _ & Hd). congruence.
  - split; [reflexivity|]. split; [reflexivity|].
    intros item Hin. now apply elem_of_nil in Hin.
Qed.

Lemma drafts_after_regen (res : Regenerated) (l : list FeedbackItem) :
  length (filter (fun i => status i = draft) (regen res <$> l)) =
  (length (filter (fun i => status i = draft) l) +
   length (filter (fun i => id i = result_id res /\ status i = final) l))%nat.
Proof.
  induction l as [|x l IH]; [reflexivity|].
  rewrite fmap_cons, !filter_cons.
  destruct (String.eqb_spec (id x) (result_id res)) as [He|Hne].
  - destruct (FeedbackFacts.regen_same res x He) as (_ & _ & Hd).
    rewrite (decide_True (P := status (regen res x) = draft)) by exact Hd.
    destruct (status x) eqn:Es.
    + rewrite decide_True by reflexivity.
      rewrite decide_False by (intros [_ H]; discriminate H).
      cbn [length]. rewrite IH. lia.
    + rewrite decide_False by discriminate.
      rewrite decide_True by (split; [exact He | reflexivity]).
      cbn [length]. rewrite IH. lia.
  - rewrite (FeedbackFacts.regen_other res x Hne).
    rewrite (decide_False (P := id x = result_id res /\ status x = final))
      by (intros [H _]; contradiction).
    destruct (decide (status x = draft)); cbn [length]; rewrite IH; lia.
Qed.

(** X13. A regeneration moves the summary one way only: the total stays,
    and the number of drafts grows by exactly the number of final items
    that carry the regenerated id, so that drafts never decrease and
    finals never increase. *)
Theorem summary_after_regeneration (res : Regenerated) (l : list FeedbackItem) :
  let before := summary (Some l) in
  let after := summary (updater res (Some l)) in
  total after = total before /\
  drafts after =
    drafts before +
    Z.of_nat (length (filter (fun i => id i = result_id res /\ status i = final) l)) /\
  drafts before <= drafts after /\
  finals after <= finals before.
Proof.
  cbv zeta. cbn [updater]. destruct l as [|x l]; [cbn; lia|].
  rewrite !FeedbackFacts.summary_nonempty by discriminate.
  cbn [total drafts finals]. rewrite length_fmap.
  rewrite drafts_after_regen. lia.
Qed.

(** X14. Scores stay scores out of 100: the list that [fetchFeedback]
    returns has all its scores between 0 and 100, and when [Math.random()]
    is in its range, from 0 up to but not including 1, the regenerated
    score [Math.floor(75 + Math.random() * 20)], computed in double
    arithmetic, is between 75 and 95, and the cache, if its scores were
    between 0 and 100, still has them so after the regeneration.  Both
    ends are reached: 75 at 0 and, by the rounding of the sum, 95 at the
    largest double below 1. *)
Theorem scores_stay_valid (Math_random : Q) (now : Z) (item_id : string)
    (pg : Page) :
  (0 <= Math_random)%Q -> (Math_random < 1)%Q ->
  (forall Date_now : nat -> Z,
      exists l, settle (fetchFeedback Date_now) = Fulfilled l /\ scoresValid l) /\
  (exists (res : Regenerated) (pg' : Page),
      settle (regenMutation Math_random now item_id pg) = Fulfilled pg' /\
      data pg' = updater res (data pg) /\
      result_id res = item_id /\
      newScore res = Math_floor (fadd 75 (fmul Math_random 20))%Q /\
      75 <= newScore res <= 95 /\
      (forall old, data pg = Some old -> scoresValid old ->
                   exists new, data pg' = Some new /\ scoresValid new)) /\
  Math_floor (fadd 75 (fmul 0 20))%Q = 75 /\
  Math_floor (fadd 75 (fmul (9007199254740991 # 9007199254740992) 20))%Q = 95.
Proof.
  intros H0 H1. split; [|split; [|split; vm_compute; reflexivity]].
  - intros Date_now. eexists. split; [reflexivity|].
    unfold scoresValid. repeat constructor; cbn; lia.
  - unfold regenMutation.
    rewrite settle_tryCatch, AsyncFacts.settle_regenerateFeedback. cbn [settle].
    set (res := {| result_id := item_id;
                   newScore := Math_floor (fadd 75 (fmul Math_random 20))%Q;
                   timestamp := toISOString now |}).
    assert (Hscore : 75 <= newScore res <= 95).
    { subst res. cbn [newScore]. unfold Math_floor, fadd, fmul.
      destruct (double_between 0 20 (Math_random * 20)%Q) as [Hy0 Hy20];
        [lia | change (inject_Z 0) with 0%Q; lra
         | change (inject_Z 20) with 20%Q; lra | reflexivity |].
      change (inject_Z 0) with 0%Q in Hy0. change (inject_Z 20) with 20%Q in Hy20.
      destruct (double_between 75 95 (75 + double (Math_random * 20))%Q) as [Hlo Hhi];
        [lia | change (inject_Z 75) with 75%Q; lra
         | change (inject_Z 95) with 95%Q; lra | reflexivity |].
      apply Qfloor_resp_le in Hlo, Hhi. rewrite Qfloor_Z in Hlo, Hhi. lia. }
    exists res, (onSuccess res pg). split; [reflexivity|].
    split; [reflexivity|]. split; [reflexivity|]. split; [reflexivity|].
    split; [exact Hscore|].
    intros old Hold Hvalid. cbn [data onSuccess]. rewrite Hold. cbn [updater].
    eexists. split; [reflexivity|].
    unfold scoresValid in *. apply Forall_fmap. eapply Forall_impl; [exact Hvalid|].
    intros item Hitem. unfold compose, regen. cbn beta in Hitem |- *.
    destruct (String.eqb (id item) (result_id res)); cbn [aiScore]; lia.
Qed.

Lemma scores_stay_valid_witness :
  exists (l : list FeedbackItem) (res : Regenerated) (pg' : Page)
         (new : list FeedbackItem),
    settle (fetchFeedback (fun _ => 1700000000000)) = Fulfilled l /\
    settle (regenMutation (9007199254740991 # 9007199254740992) 1700000000000
              "fb-2" {| data := Some l; toasts := [] |}) = Fulfilled pg' /\
    data pg' = Some new /\
    result_id res = "fb-2" /\
    newScore res = 95 /\
    aiScore <$> l = [92; 78; 85] /\
    aiScore <$> new = [92; 95; 85] /\
    scoresValid new.
Proof.
  exists (match settle (fetchFeedback (fun _ => 1700000000000)) with
          | Fulfilled l => l
          | Rejected _ => []
          end).
  cbn [settle fetchFeedback].
  match goal with
  | |- exists res pg' new, _ /\ settle (regenMutation ?r ?now ?i ?pg) = _ /\ _ =>
      destruct (scores_stay_valid r now i pg)
        as (_ & (res & pg' & Hrun & Hdata & Hid & Hscore & _ & Hvalid) & _ & H95)
  end.
  - vm_compute. discriminate.
  - vm_compute. reflexivity.
  - destruct (Hvalid _ eq_refl) as (new & Hnew & Hv).
    { unfold scoresValid. repeat constructor; cbn; lia. }
    exists res, pg', new.
    split; [reflexivity|]. split; [exact Hrun|]. split; [exact Hnew|].
    split; [exact Hid|]. rewrite H95 in Hscore. split; [exact Hscore|].
    split; [reflexivity|]. split; [|exact Hv].
    rewrite Hnew in Hdata. cbn [data updater] in Hdata. injection Hdata as ->.
    cbn [fmap list_fmap]. unfold regen. rewrite Hid, Hscore. reflexivity.
Defined.

End RegenerationFacts.

(* ===================================================================== *)
(** * Names in the layout, keys in the settings *)
(* ===================================================================== *)

Section TextFacts.

Lemma length_append (a b : string) :
  String.length (a +:+ b) = (String.length a + String.length b)%nat.
Proof.
  induction a as [|x a IH]; [reflexivity|].
  rewrite append_cons. cbn [String.length]. now rewrite IH.
Qed.

Lemma append_nil_r (s : string) : s +:+ "" = s.
Proof.
  induction s as [|c s IH]; [reflexivity|]. rewrite append_cons. now f_equal.
Qed.

Lemma length_substring (n m : nat) (s : string) :
  (String.length (substring n m s) <= m)%nat.
Proof.
  revert n m. induction s as [|c s IH]; intros [|n] [|m]; cbn; try lia.
  - specialize (IH 0%nat m). lia.
  - apply (IH n 0%nat).
  - apply (IH n (S m)).
Qed.

Lemma split_nonempty (sep : ascii) (s : string) : split sep s <> [].
Proof.
  destruct s as [|c s]; cbn; [discriminate|].
  destruct (Ascii.eqb c sep); [discriminate|].
  destruct (split sep s); discriminate.
Qed.

Lemma joinWith_cons (sep x : string) (xs : list string) :
  xs <> [] -> joinWith sep (x :: xs) = x +:+ sep +:+ joinWith sep xs.
Proof. destruct xs; [contradiction | reflexivity]. Qed.

Lemma split_join (sep : ascii) (s : string) :
  joinWith (String sep "") (split sep s) = s.
Proof.
  induction s as [|c s IH]; [reflexivity|]. cbn [split].
  destruct (Ascii.eqb_spec c sep) as [->|Hne].
  - rewrite joinWith_cons by apply split_nonempty. now rewrite IH.
  - destruct (split sep s) as [|piece pieces] eqn:E.
    + now apply split_nonempty in E.
    + destruct pieces as [|p ps].
      * cbn in IH |- *. now rewrite IH.
      * rewrite joinWith_cons in IH |- * by discriminate.
        rewrite append_cons. now rewrite IH.
Qed.

Lemma occursIn_cons_inv (sep c : ascii) (s : string) :
  occursIn (String sep "") (String c s) -> c = sep \/ occursIn (String sep "") s.
Proof.
  intros ([|b before] & after & H).
  - left. now injection H.
  - right. rewrite append_cons in H. injection H as _ H. now exists before, after.
Qed.

Lemma split_pieces_clean (sep : ascii) (s piece : string) :
  piece ∈ split sep s -> ~ occursIn (String sep "") piece.
Proof.
  revert piece. induction s as [|c s IH]; intros piece Hin.
  - apply list_elem_of_singleton in Hin as ->.
    intros ([|b before] & after & H); discriminate H.
  - cbn [split] in Hin. destruct (Ascii.eqb_spec c sep) as [->|Hne].
    + apply elem_of_cons in Hin as [->|Hin]; [|now apply IH].
      intros ([|b before] & after & H); discriminate H.
    + destruct (split sep s) as [|p ps] eqn:E.
      * now apply split_nonempty in E.
      * apply elem_of_cons in Hin as [->|Hin].
        -- intros Hocc. apply occursIn_cons_inv in Hocc as [Hc|Hocc]; [contradiction|].
           revert Hocc. apply IH. now left.
        -- apply IH. now right.
Qed.

End TextFacts.

Module LayoutFacts.
Import AuthContext.

(** X15. The first name of the header greeting is the part of the user's
    name before its first space: the name is the first name followed by
    nothing or by a text that starts with a space, and the first name has
    no space in it (so it is empty when the name starts with a space, and
    the whole name when the name has no space). *)
Theorem firstName_spec (name : string) :
  (exists rest : string,
      name = DashboardLayout.firstName name +:+ rest /\
      (rest = "" \/ startsWith rest " " = true)) /\
  ~ occursIn " " (DashboardLayout.firstName name) /\
  (~ occursIn " " name -> DashboardLayout.firstName name = name).
Proof.
  unfold DashboardLayout.firstName.
  pose proof (split_join " " name) as Hjoin.
  pose proof (split_pieces_clean " " name) as Hclean.
  destruct (split " " name) as [|piece pieces] eqn:E.
  - now apply split_nonempty in E.
  - assert (Hrest : exists rest, name = piece +:+ rest /\
                                 (rest = "" \/ startsWith rest " " = true)).
    { destruct pieces as [|p ps].
      - exists "". cbn in Hjoin. subst piece. split; [|now left].
        symmetry. apply append_nil_r.
      - rewrite joinWith_cons in Hjoin by discriminate.
        eexists. split; [symmetry; exact Hjoin|]. right. reflexivity. }
    split; [exact Hrest|]. split.
    + apply Hclean. now left.
    + intros Hno. destruct Hrest as (rest & Hname & [->|Hsp]).
      * rewrite Hname. symmetry. apply append_nil_r.
      * exfalso. apply Hno. apply startsWith_spec in Hsp as (rest' & ->).
        exists piece, rest'. exact Hname.
Qed.

Lemma joinChars_length (pieces : list string) :
  String.length (joinChars (first <$> pieces)) =
  length (filter (fun p => p <> "") pieces).
Proof.
  induction pieces as [|p ps IH]; [reflexivity|].
  rewrite fmap_cons, filter_cons. destruct p as [|c p].
  - rewrite decide_False by congruence. exact IH.
  - rewrite decide_True by discriminate. cbn. now rewrite IH.
Qed.

Lemma joinChars_clean (sep : ascii) (cs : list (option ascii)) :
  occursIn (String sep "") (joinChars cs) -> Some sep ∈ cs.
Proof.
  induction cs as [|[c|] cs IH]; cbn [joinChars].
  - intros ([|b before] & after & H); discriminate H.
  - intros Hocc. apply occursIn_cons_inv in Hocc as [->|Hocc]; [now left|].
    right. now apply IH.
  - intros Hocc. right. now apply IH.
Qed.

(** X16. The avatar initials have one character for each nonempty word of
    the name (words being what single spaces separate), and never a space;
    a name made of spaces only has no initials. *)
Theorem initials_spec (name : string) :
  String.length (AppSidebar.initials name) =
    length (filter (fun p => p <> "") (split " " name)) /\
  ~ occursIn " " (AppSidebar.initials name).
Proof.
  unfold AppSidebar.initials. split; [apply joinChars_length|].
  intros Hocc. apply joinChars_clean in Hocc.
  apply list_elem_of_fmap in Hocc as (piece & Hfirst & Hin).
  destruct piece as [|c piece]; [discriminate|]. injection Hfirst as <-.
  apply (split_pieces_clean " " name _ Hin). exists "", piece. reflexivity.
Qed.

(** X17. A regenerated API key always starts with [sk_edb_] and has
    between 7 and 33 characters, whatever texts the random numbers give;
    the regeneration waits 1200 ms, ends with the pending flag lowered,
    raises one toast, and leaves the submit flag of the forms alone. *)
Theorem regenerateApiKey_key (random36 : nat -> string)
    (st : TeacherSettings.Settings) :
  timers (TeacherSettings.regenerateApiKey random36 st) = [1200] /\
  exists st' : TeacherSettings.Settings,
    settle (TeacherSettings.regenerateApiKey random36 st) = Fulfilled st' /\
    startsWith (TeacherSettings.apiKey st') "sk_edb_" = true /\
    (7 <= String.length (TeacherSettings.apiKey st') <= 33)%nat /\
    TeacherSettings.isKeyRegenPending st' = false /\
    TeacherSettings.isSubmitting st' = TeacherSettings.isSubmitting st /\
    exists t : Toast,
      TeacherSettings.toasts st' = (TeacherSettings.toasts st ++ [t])%list.
Proof.
  split; [reflexivity|]. eexists. split; [reflexivity|].
  cbn [TeacherSettings.apiKey TeacherSettings.setIsKeyRegenPending
       TeacherSettings.toast TeacherSettings.setApiKey
       TeacherSettings.isKeyRegenPending TeacherSettings.isSubmitting
       TeacherSettings.toasts].
  split; [|split; [|split; [|split]]].
  - apply startsWith_spec. eexists. reflexivity.
  - rewrite !length_append.
    pose proof (length_substring 2 13 (random36 0%nat)).
    pose proof (length_substring 2 13 (random36 1%nat)).
    cbn [String.length]. lia.
  - reflexivity.
  - reflexivity.
  - eexists. reflexivity.
Qed.

End LayoutFacts.

(* ===================================================================== *)
(** * Signing in and out, end to end *)
(* ===================================================================== *)

Module FlowFacts.
Import AuthContext.

Lemma login_page_of_member (u : User) (st : gmap string string) (isLoggingIn : bool) :
  exists layout : DashboardLayout.Layout (option App.Page),
    Root.settleLocation 1 {| user := Some u; loading := false; localStorage := st |}
      isLoggingIn "/login" = ("/dashboard", Root.Portal layout) /\
    DashboardLayout.content layout = Some (dashboardOf (role u)) /\
    DashboardLayout.sidebar layout = AppSidebar.AppSidebar (Some u).
Proof.
  unfold Root.settleLocation. rewrite NavigationFacts.App_member_login, NavigationFacts.App_member_dashboard.
  destruct (role u); eexists; repeat split.
Qed.

(** X18. Signing in and out, end to end.  A submit of the login form with
    a nonempty email and password, for the selected role [r], leaves the
    visitor on [/dashboard] inside the layout with the dashboard of [r];
    a logout, from any state that is not loading and at any location,
    leaves the visitor on the login form. *)
Theorem sign_in_and_out (s : State) (isLoggingIn : bool) :
  (forall (email password : string) (r : UserRole),
      email <> "" -> password <> "" ->
      exists (out : Login.Outcome) (layout : DashboardLayout.Layout (option App.Page)),
        settle (Login.handleLogin email password r isLoggingIn s) = Fulfilled out /\
        Root.settleLocation 1 (Login.auth out) (Login.isLoggingIn out) "/login"
          = ("/dashboard", Root.Portal layout) /\
        DashboardLayout.content layout = Some (dashboardOf r)) /\
  (forall pathname : string,
      loading s = false ->
      exists (loc : string) (disabled : bool) (buttonLabel : string),
        Root.settleLocation 1 (logout s) isLoggingIn pathname
          = (loc, Root.LoginPage disabled buttonLabel) /\
        App.matchPath "/login" loc = true).
Proof.
  split.
  - intros email password r He Hp. unfold Login.handleLogin.
    apply String.eqb_neq in He, Hp. rewrite He, Hp. cbn [orb].
    rewrite settle_tryCatch, AuthFacts.settle_login. cbn [settle].
    destruct (login_page_of_member (mockUsers r)
                (<["edubridge-user" := JSON_stringify (mockUsers r)]> (localStorage s))
                false) as (layout & Hl & Hc & _).
    eexists. exists layout. split; [reflexivity|]. cbn [Login.auth Login.isLoggingIn].
    split; [exact Hl|]. now rewrite Hc, AuthFacts.role_mockUsers.
  - intros pathname Hl. destruct s as [u l st]. cbn in Hl. subst l.
    unfold logout, removeItem, setUser. cbn [user loading localStorage].
    unfold Root.settleLocation. rewrite NavigationFacts.App_guest.
    destruct (App.matchPath "/login" pathname) eqn:E.
    + exists pathname. eexists. eexists. split; [reflexivity | exact E].
    + rewrite NavigationFacts.App_guest.
      change (App.matchPath "/login" "/login") with true.
      exists "/login". eexists. eexists. split; reflexivity.
Qed.

End FlowFacts.

Module KeyFacts.
Import AIFeedback.

Lemma sublist_fmap {A B} (f : A -> B) (l1 l2 : list A) :
  l1 `sublist_of` l2 -> f <$> l1 `sublist_of` f <$> l2.
Proof. induction 1; cbn; constructor; assumption. Qed.

Ltac distinct_ids :=
  repeat (constructor;
          [ let Hin := fresh "Hin" in
            intros Hin;
            repeat (apply elem_of_cons in Hin as [Hin|Hin]; [discriminate Hin|]);
            now apply elem_of_nil in Hin
          | ]);
  constructor.

Lemma ids_after_regen (res : Regenerated) (l : list FeedbackItem) :
  id <$> (regen res <$> l) = id <$> l.
Proof.
  rewrite <- list_fmap_compose. apply list_fmap_ext.
  intros i x _. apply (proj1 (FeedbackFacts.regen_frame res x)).
Qed.

(** X19. The ids, which key the rows of the list, stay unique: the list
    that [fetchFeedback] returns has no id twice, and for a cache without
    a repeated id a regeneration keeps the ids as they are, every filtered
    list has no id twice, and a regeneration changes the item at one
    position at most. *)
Theorem keys_stay_unique (l : list FeedbackItem) :
  NoDup (id <$> l) ->
  (forall Date_now : nat -> Z,
      exists l0, settle (fetchFeedback Date_now) = Fulfilled l0 /\ NoDup (id <$> l0)) /\
  (forall res : Regenerated,
      exists new, updater res (Some l) = Some new /\
                  id <$> new = id <$> l /\ NoDup (id <$> new)) /\
  (forall (search subjectFilter : string) (statusFilter : StatusFilter),
      NoDup (id <$> filtered (Some l) search subjectFilter statusFilter)) /\
  (forall (res : Regenerated) (i j : nat) (x y : FeedbackItem),
      l !! i = Some x -> l !! j = Some y ->
      regen res x <> x -> regen res y <> y -> i = j).
Proof.
  intros Hnd. split; [|split; [|split]].
  - intros Date_now. eexists. split; [reflexivity|].
    cbn. distinct_ids.
  - intros res. eexists. split; [reflexivity|].
    rewrite ids_after_regen. split; [reflexivity | exact Hnd].
  - intros search subjectFilter statusFilter.
    eapply sublist_NoDup; [exact Hnd|]. apply sublist_fmap, filter_sublist.
  - intros res i j x y Hi Hj Hx Hy.
    assert (Hidx : id x = result_id res).
    { destruct (String.eqb_spec (id x) (result_id res)) as [H|H]; [exact H|].
      exfalso. apply Hx. now apply FeedbackFacts.regen_other. }
    assert (Hidy : id y = result_id res).
    { destruct (String.eqb_spec (id y) (result_id res)) as [H|H]; [exact H|].
      exfalso. apply Hy. now apply FeedbackFacts.regen_other. }
    apply (NoDup_lookup (id <$> l) i j (result_id res) Hnd);
      rewrite list_lookup_fmap; [rewrite Hi | rewrite Hj]; cbn; congruence.
Qed.

Lemma keys_stay_unique_witness :
  exists l0 : list FeedbackItem,
    settle (fetchFeedback (fun _ => 1700000000000)) = Fulfilled l0 /\
    forall res : Regenerated,
      exists new, updater res (Some l0) = Some new /\ NoDup (id <$> new).
Proof.
  eexists. split; [reflexivity|]. intros res.
  match goal with
  | |- context [updater res (Some ?l)] =>
      assert (Hnd : NoDup (id <$> l))
        by (cbn; distinct_ids);
      destruct (proj1 (proj2 (keys_stay_unique l Hnd)) res) as (new & H1 & _ & H2)
  end.
  exists new. split; assumption.
Defined.

End KeyFacts.
